(** * Pinchy chat view: realtime session / event reconciliation

    A shallow embedding of the reconciliation layer of the Pinchy operator
    dashboard: the React chat route ([web/src/routes/chat.tsx]), the legacy
    chat view ([static/views/chat.js]) and the legacy socket owner
    ([static/app.js]).

    Conventions of the embedding.
    - A JavaScript string is a [string]; [slice], [trim] and [length] work on
      its characters.
    - An epoch timestamp is a [Z]; a JavaScript number that is used as a
      truth value is true exactly when it is not zero.
    - An optional field of a wire object is an [option]; [None] stands for
      both [undefined] and [null], which [??] treats alike.
    - [Date.now()] is an input of the handler that calls it.
    - A React [useState] cell and a [useRef] cell are record fields; an effect
      is a function that runs when the value it depends on has changed. *)

From Stdlib Require Import ZArith String Ascii List Bool Lia.
From stdpp Require Import base decidable option list strings pretty gmap.

Local Open Scope string_scope.
Local Open Scope Z_scope.

(** ** JavaScript values and the helpers the views share *)

(** A value of TypeScript type [unknown] as it comes out of [JSON.parse].
    An object or array carries the text [JSON.stringify(value, null, 2)]
    yields for it. *)
Inductive JsValue : Type :=
  | JUndefined
  | JNull
  | JString (s : string)
  | JBool (b : bool)
  | JNumber (n : Z)
  | JObject (json : string).

(** Truthiness, as [||], [!] and [if] see a value. *)
Definition truthy (v : JsValue) : bool :=
  match v with
  | JUndefined | JNull => false
  | JString s => negb (String.eqb s "")
  | JBool b => b
  | JNumber n => negb (n =? 0)
  | JObject _ => true
  end.

(** [a || b] on values. *)
Definition js_or (a b : JsValue) : JsValue := if truthy a then a else b.

(** [a ?? b] on values. *)
Definition js_nullish (a b : JsValue) : JsValue :=
  match a with
  | JUndefined | JNull => b
  | _ => a
  end.

(** [String(n)] and the template rendering of an integer. *)
Definition numberToString (n : Z) : string := pretty n.

(** [s.slice(0, n)]. *)
Definition slice0 (n : nat) (s : string) : string := substring 0 n s.

(** The white space [String.prototype.trim] strips, within ASCII. *)
Definition isWhite (c : ascii) : bool :=
  let n := nat_of_ascii c in
  ((9 <=? n) && (n <=? 13))%nat || (n =? 32)%nat.

Fixpoint trimStart (s : string) : string :=
  match s with
  | String c s' => if isWhite c then trimStart s' else s
  | EmptyString => EmptyString
  end.

Fixpoint trimEnd (s : string) : string :=
  match s with
  | String c s' =>
      match trimEnd s' with
      | EmptyString => if isWhite c then EmptyString else String c EmptyString
      | t => String c t
      end
  | EmptyString => EmptyString
  end.

Definition trim (s : string) : string := trimEnd (trimStart s).

(** [l.slice(-n)]: the last [n] elements. *)
Definition lastN {A} (n : nat) (l : list A) : list A :=
  drop (length l - n)%nat l.

(** ** The markdown renderer both views carry *)







(** ** Wire shapes both views share *)

(** An entry of [tool_calls] on the wire. *)
Record WireToolCall : Type := mkWireToolCall {
  tc_tool : option string;
  tc_success : option bool;
  tc_duration_ms : option Z;
  tc_args_summary : option string;
  tc_error : option string
}.

(** The [tokens] object on the wire. *)
Record WireTokens : Type := mkWireTokens {
  prompt_tokens : option Z;
  completion_tokens : option Z;
  total_tokens : option Z
}.

(** [WebSocket.readyState]. *)
Inductive ReadyState : Type := CONNECTING | OPEN | CLOSING | CLOSED.

(** A [client_command] frame. *)
Record ClientCommand : Type := mkCommand {
  command : string;
  target_agent : string
}.

(** ** The React chat route, [web/src/routes/chat.tsx] *)

Module Web.

(** [type LiveMessage]. *)
Record LiveMessage : Type := mkLive {
  role : string;
  content : string;
  timestamp : Z
}.

#[export] Instance LiveMessage_eq_dec : EqDecision LiveMessage.
Proof. solve_decision. Defined.

(** [type SessionMessage] of the API client: every field optional, the
    content of unknown shape. *)
Record SessionMessage : Type := mkSession {
  sm_role : option string;
  sm_content : JsValue;
  sm_timestamp : option Z
}.

(** [toText]. *)
Definition toText (value : JsValue) : string :=
  match value with
  | JString s => s
  | JNull | JUndefined => ""
  | JObject json => json
  | JBool true => "true"
  | JBool false => "false"
  | JNumber n => numberToString n
  end.

(** [messageBaseKey]. *)
Definition messageBaseKey (role : option string) (content : JsValue) : string :=
  default "assistant" role +:+ "|" +:+ slice0 200 (toText content).

(** [messageKey]: the timestamp refines the key only when it is truthy. *)
Definition messageKey (role : option string) (content : JsValue)
    (timestamp : option Z) : string :=
  match timestamp with
  | Some t =>
      if t =? 0 then messageBaseKey role content
      else messageBaseKey role content +:+ "|" +:+ numberToString t
  | None => messageBaseKey role content
  end.

(** The two keys of a message that is already in the transcript. *)
Definition liveKey (m : LiveMessage) : string :=
  messageKey (Some (role m)) (JString (content m)) (Some (timestamp m)).

Definition liveBaseKey (m : LiveMessage) : string :=
  messageBaseKey (Some (role m)) (JString (content m)).

(** [normalizeMessage]; [now] is what [Date.now()] returns in this call. *)
Definition normalizeMessage (now : Z) (message : SessionMessage) : LiveMessage :=
  {| role := default "assistant" (sm_role message);
     content := toText (sm_content message);
     timestamp := default now (sm_timestamp message) |}.

(** The [timestamp] that [persistedReceipts] gives a fetched receipt from
    its [started_at]: here seconds are told from milliseconds. *)
Definition receiptTimestamp (now : Z) (started_at : option Z) : Z :=
  match started_at with
  | Some n => if 10 ^ 12 <? n then n else n * 1000
  | None => now
  end.

(** The filter of [allMessages]:
    [m.role && m.content !== undefined && m.content !== null && m.content !== ""]. *)
Definition keepPersisted (m : SessionMessage) : bool :=
  match sm_role m with
  | Some r => negb (String.eqb r "")
  | None => false
  end
  && match sm_content m with
     | JUndefined | JNull => false
     | JString s => negb (String.eqb s "")
     | _ => true
     end.

(** [persisted] of [allMessages]; [clock i] is [Date.now()] at the i-th
    call of [normalizeMessage]. *)
Definition persistedMessages (clock : nat -> Z) (raw : list SessionMessage)
    : list LiveMessage :=
  imap (fun i m => normalizeMessage (clock i) m)
       (List.filter keepPersisted raw).

(** The predicate [liveMessages.filter] is given in [allMessages]. *)
Definition notPersisted (persistedKeys persistedBaseKeys : gset string)
    (m : LiveMessage) : bool :=
  if bool_decide (liveKey m ∈ persistedKeys) then false
  else if bool_decide (liveBaseKey m ∈ persistedBaseKeys) then false
  else true.

(** The rest of [allMessages], on the normalized persisted list. *)
Definition mergeMessages (persisted liveMessages : list LiveMessage)
    : list LiveMessage :=
  match persisted with
  | [] => liveMessages
  | _ =>
    match liveMessages with
    | [] => persisted
    | _ =>
      let persistedKeys : gset string := list_to_set (liveKey <$> persisted) in
      let persistedBaseKeys : gset string :=
        list_to_set (liveBaseKey <$> persisted) in
      let dedupedLive :=
        List.filter (notPersisted persistedKeys persistedBaseKeys)
          liveMessages in
      (persisted ++ dedupedLive)%list
    end
  end.

(** [allMessages]. *)
Definition allMessages (clock : nat -> Z) (raw : list SessionMessage)
    (liveMessages : list LiveMessage) : list LiveMessage :=
  mergeMessages (persistedMessages clock raw) liveMessages.


(** *** Wire events and view state *)

Inductive ActivityKind : Type := KTool | KReceipt | KInfo | KError.

(** [type ActivityItem]. *)
Record ActivityItem : Type := mkActivity {
  act_text : string;
  act_timestamp : Z;
  act_kind : ActivityKind
}.

(** An entry of [ReceiptItem.tools]. *)
Record ReceiptTool : Type := mkReceiptTool {
  rt_tool : string;
  rt_success : bool;
  rt_durationMs : option Z
}.

(** An entry of [ReceiptItem.toolCalls]. *)
Record ReceiptToolCall : Type := mkReceiptToolCall {
  rc_name : string;
  rc_args : string;
  rc_success : bool;
  rc_duration : Z;
  rc_error : option string
}.

(** [type ReceiptItem]. *)
Record ReceiptItem : Type := mkReceipt {
  r_timestamp : Z;
  r_prompt : Z;
  r_completion : Z;
  r_total : Z;
  r_durationMs : option Z;
  r_modelCalls : option Z;
  r_tools : list ReceiptTool;
  r_toolCalls : list ReceiptToolCall
}.

(** [type GatewayEvent]: every field optional. *)
Record GatewayEvent : Type := mkEvent {
  ev_type : option string;
  ev_agents : option (list string);
  ev_agent : option string;
  ev_agent_id : option string;
  ev_session : option string;
  ev_session_id : option string;
  ev_role : option string;
  ev_content : JsValue;
  ev_message : JsValue;
  ev_response : JsValue;
  ev_error : JsValue;
  ev_delta : option string;
  ev_done : option bool;
  ev_tool : option string;
  ev_timestamp : option Z;
  ev_tokens : option WireTokens;
  ev_duration_ms : option Z;
  ev_model_calls : option Z;
  ev_tool_calls : option (list WireToolCall)
}.

(** What the handlers ask of the REST query client. *)
Inductive QueryEffect : Type :=
  | InvalidateAgents
  | InvalidateSessions (agent : string)
  | InvalidateCurrentSession (agent : string)
  | RefetchSessionsLater.

Record ChatState : Type := mkChat {
  selectedAgent : string;
  selectedSession : string;
  draft : string;
  typing : bool;
  typingLabel : string;
  liveMessages : list LiveMessage;
  activityItems : list ActivityItem;
  receipts : list ReceiptItem;
  streamBuffer : string;  (* the useState cell that re-triggers the reveal effect *)
  displayedStream : string;
  otherSession : option (string * string);  (* banner: session id and detail *)
  wsConnected : bool;
  uiWsConnected : bool;  (* the shared store's copy, setWsConnectedGlobal *)
  seenKeys : gset string;  (* seenKeysRef *)
  streamBufferRef : string;
  revealedLen : nat;  (* revealedLenRef *)
  revealRaf : bool;  (* revealRafRef: a frame of the reveal loop is scheduled *)
  isStreaming : bool;  (* isStreamingRef *)
  pendingFinalize : option string;  (* pendingFinalizeRef: the closure, by the content it captured *)
  otherSessionTimer : bool;  (* a banner auto-clear timeout is pending *)
  wsRef : option ReadyState;  (* wsRef.current and its readyState *)
  wsReconnectAttempts : nat;
  wsReconnectTimer : option Z;  (* delay of the pending reconnect, in ms *)
  userPickedSession : bool;  (* userPickedSessionRef *)
  sent : list ClientCommand;  (* frames handed to WebSocket.send, oldest first *)
  queryEffects : list QueryEffect  (* invalidations and refetches asked of the query client *)
}.

Definition set_selectedAgent (v : string) (s : ChatState) : ChatState :=
  mkChat v (selectedSession s) (draft s) (typing s) (typingLabel s)
    (liveMessages s) (activityItems s) (receipts s) (streamBuffer s)
    (displayedStream s) (otherSession s) (wsConnected s) (uiWsConnected s)
    (seenKeys s) (streamBufferRef s) (revealedLen s) (revealRaf s)
    (isStreaming s) (pendingFinalize s) (otherSessionTimer s) (wsRef s)
    (wsReconnectAttempts s) (wsReconnectTimer s) (userPickedSession s)
    (sent s) (queryEffects s).
Definition set_selectedSession (v : string) (s : ChatState) : ChatState :=
  mkChat (selectedAgent s) v (draft s) (typing s) (typingLabel s)
    (liveMessages s) (activityItems s) (receipts s) (streamBuffer s)
    (displayedStream s) (otherSession s) (wsConnected s) (uiWsConnected s)
    (seenKeys s) (streamBufferRef s) (revealedLen s) (revealRaf s)
    (isStreaming s) (pendingFinalize s) (otherSessionTimer s) (wsRef s)
    (wsReconnectAttempts s) (wsReconnectTimer s) (userPickedSession s)
    (sent s) (queryEffects s).
Definition set_draft (v : string) (s : ChatState) : ChatState :=
  mkChat (selectedAgent s) (selectedSession s) v (typing s) (typingLabel s)
    (liveMessages s) (activityItems s) (receipts s) (streamBuffer s)
    (displayedStream s) (otherSession s) (wsConnected s) (uiWsConnected s)
    (seenKeys s) (streamBufferRef s) (revealedLen s) (revealRaf s)
    (isStreaming s) (pendingFinalize s) (otherSessionTimer s) (wsRef s)
    (wsReconnectAttempts s) (wsReconnectTimer s) (userPickedSession s)
    (sent s) (queryEffects s).
Definition set_typing (v : bool) (s : ChatState) : ChatState :=
  mkChat (selectedAgent s) (selectedSession s) (draft s) v (typingLabel s)
    (liveMessages s) (activityItems s) (receipts s) (streamBuffer s)
    (displayedStream s) (otherSession s) (wsConnected s) (uiWsConnected s)
    (seenKeys s) (streamBufferRef s) (revealedLen s) (revealRaf s)
    (isStreaming s) (pendingFinalize s) (otherSessionTimer s) (wsRef s)
    (wsReconnectAttempts s) (wsReconnectTimer s) (userPickedSession s)
    (sent s) (queryEffects s).
Definition set_typingLabel (v : string) (s : ChatState) : ChatState :=
  mkChat (selectedAgent s) (selectedSession s) (draft s) (typing s) v
    (liveMessages s) (activityItems s) (receipts s) (streamBuffer s)
    (displayedStream s) (otherSession s) (wsConnected s) (uiWsConnected s)
    (seenKeys s) (streamBufferRef s) (revealedLen s) (revealRaf s)
    (isStreaming s) (pendingFinalize s) (otherSessionTimer s) (wsRef s)
    (wsReconnectAttempts s) (wsReconnectTimer s) (userPickedSession s)
    (sent s) (queryEffects s).
Definition set_liveMessages (v : list LiveMessage) (s : ChatState) : ChatState :=
  mkChat (selectedAgent s) (selectedSession s) (draft s) (typing s)
    (typingLabel s) v (activityItems s) (receipts s) (streamBuffer s)
    (displayedStream s) (otherSession s) (wsConnected s) (uiWsConnected s)
    (seenKeys s) (streamBufferRef s) (revealedLen s) (revealRaf s)
    (isStreaming s) (pendingFinalize s) (otherSessionTimer s) (wsRef s)
    (wsReconnectAttempts s) (wsReconnectTimer s) (userPickedSession s)
    (sent s) (queryEffects s).
Definition set_activityItems (v : list ActivityItem) (s : ChatState) : ChatState :=
  mkChat (selectedAgent s) (selectedSession s) (draft s) (typing s)
    (typingLabel s) (liveMessages s) v (receipts s) (streamBuffer s)
    (displayedStream s) (otherSession s) (wsConnected s) (uiWsConnected s)
    (seenKeys s) (streamBufferRef s) (revealedLen s) (revealRaf s)
    (isStreaming s) (pendingFinalize s) (otherSessionTimer s) (wsRef s)
    (wsReconnectAttempts s) (wsReconnectTimer s) (userPickedSession s)
    (sent s) (queryEffects s).
Definition set_receipts (v : list ReceiptItem) (s : ChatState) : ChatState :=
  mkChat (selectedAgent s) (selectedSession s) (draft s) (typing s)
    (typingLabel s) (liveMessages s) (activityItems s) v (streamBuffer s)
    (displayedStream s) (otherSession s) (wsConnected s) (uiWsConnected s)
    (seenKeys s) (streamBufferRef s) (revealedLen s) (revealRaf s)
    (isStreaming s) (pendingFinalize s) (otherSessionTimer s) (wsRef s)
    (wsReconnectAttempts s) (wsReconnectTimer s) (userPickedSession s)
    (sent s) (queryEffects s).
Definition set_streamBuffer (v : string) (s : ChatState) : ChatState :=
  mkChat (selectedAgent s) (selectedSession s) (draft s) (typing s)
    (typingLabel s) (liveMessages s) (activityItems s) (receipts s) v
    (displayedStream s) (otherSession s) (wsConnected s) (uiWsConnected s)
    (seenKeys s) (streamBufferRef s) (revealedLen s) (revealRaf s)
    (isStreaming s) (pendingFinalize s) (otherSessionTimer s) (wsRef s)
    (wsReconnectAttempts s) (wsReconnectTimer s) (userPickedSession s)
    (sent s) (queryEffects s).
Definition set_displayedStream (v : string) (s : ChatState) : ChatState :=
  mkChat (selectedAgent s) (selectedSession s) (draft s) (typing s)
    (typingLabel s) (liveMessages s) (activityItems s) (receipts s)
    (streamBuffer s) v (otherSession s) (wsConnected s) (uiWsConnected s)
    (seenKeys s) (streamBufferRef s) (revealedLen s) (revealRaf s)
    (isStreaming s) (pendingFinalize s) (otherSessionTimer s) (wsRef s)
    (wsReconnectAttempts s) (wsReconnectTimer s) (userPickedSession s)
    (sent s) (queryEffects s).
Definition set_otherSession (v : option (string * string)) (s : ChatState) : ChatState :=
  mkChat (selectedAgent s) (selectedSession s) (draft s) (typing s)
    (typingLabel s) (liveMessages s) (activityItems s) (receipts s)
    (streamBuffer s) (displayedStream s) v (wsConnected s) (uiWsConnected s)
    (seenKeys s) (streamBufferRef s) (revealedLen s) (revealRaf s)
    (isStreaming s) (pendingFinalize s) (otherSessionTimer s) (wsRef s)
    (wsReconnectAttempts s) (wsReconnectTimer s) (userPickedSession s)
    (sent s) (queryEffects s).
Definition set_wsConnected (v : bool) (s : ChatState) : ChatState :=
  mkChat (selectedAgent s) (selectedSession s) (draft s) (typing s)
    (typingLabel s) (liveMessages s) (activityItems s) (receipts s)
    (streamBuffer s) (displayedStream s) (otherSession s) v (uiWsConnected s)
    (seenKeys s) (streamBufferRef s) (revealedLen s) (revealRaf s)
    (isStreaming s) (pendingFinalize s) (otherSessionTimer s) (wsRef s)
    (wsReconnectAttempts s) (wsReconnectTimer s) (userPickedSession s)
    (sent s) (queryEffects s).
Definition set_uiWsConnected (v : bool) (s : ChatState) : ChatState :=
  mkChat (selectedAgent s) (selectedSession s) (draft s) (typing s)
    (typingLabel s) (liveMessages s) (activityItems s) (receipts s)
    (streamBuffer s) (displayedStream s) (otherSession s) (wsConnected s) v
    (seenKeys s) (streamBufferRef s) (revealedLen s) (revealRaf s)
    (isStreaming s) (pendingFinalize s) (otherSessionTimer s) (wsRef s)
    (wsReconnectAttempts s) (wsReconnectTimer s) (userPickedSession s)
    (sent s) (queryEffects s).
Definition set_seenKeys (v : gset string) (s : ChatState) : ChatState :=
  mkChat (selectedAgent s) (selectedSession s) (draft s) (typing s)
    (typingLabel s) (liveMessages s) (activityItems s) (receipts s)
    (streamBuffer s) (displayedStream s) (otherSession s) (wsConnected s)
    (uiWsConnected s) v (streamBufferRef s) (revealedLen s) (revealRaf s)
    (isStreaming s) (pendingFinalize s) (otherSessionTimer s) (wsRef s)
    (wsReconnectAttempts s) (wsReconnectTimer s) (userPickedSession s)
    (sent s) (queryEffects s).
Definition set_streamBufferRef (v : string) (s : ChatState) : ChatState :=
  mkChat (selectedAgent s) (selectedSession s) (draft s) (typing s)
    (typingLabel s) (liveMessages s) (activityItems s) (receipts s)
    (streamBuffer s) (displayedStream s) (otherSession s) (wsConnected s)
    (uiWsConnected s) (seenKeys s) v (revealedLen s) (revealRaf s)
    (isStreaming s) (pendingFinalize s) (otherSessionTimer s) (wsRef s)
    (wsReconnectAttempts s) (wsReconnectTimer s) (userPickedSession s)
    (sent s) (queryEffects s).
Definition set_revealedLen (v : nat) (s : ChatState) : ChatState :=
  mkChat (selectedAgent s) (selectedSession s) (draft s) (typing s)
    (typingLabel s) (liveMessages s) (activityItems s) (receipts s)
    (streamBuffer s) (displayedStream s) (otherSession s) (wsConnected s)
    (uiWsConnected s) (seenKeys s) (streamBufferRef s) v (revealRaf s)
    (isStreaming s) (pendingFinalize s) (otherSessionTimer s) (wsRef s)
    (wsReconnectAttempts s) (wsReconnectTimer s) (userPickedSession s)
    (sent s) (queryEffects s).
Definition set_revealRaf (v : bool) (s : ChatState) : ChatState :=
  mkChat (selectedAgent s) (selectedSession s) (draft s) (typing s)
    (typingLabel s) (liveMessages s) (activityItems s) (receipts s)
    (streamBuffer s) (displayedStream s) (otherSession s) (wsConnected s)
    (uiWsConnected s) (seenKeys s) (streamBufferRef s) (revealedLen s) v
    (isStreaming s) (pendingFinalize s) (otherSessionTimer s) (wsRef s)
    (wsReconnectAttempts s) (wsReconnectTimer s) (userPickedSession s)
    (sent s) (queryEffects s).
Definition set_isStreaming (v : bool) (s : ChatState) : ChatState :=
  mkChat (selectedAgent s) (selectedSession s) (draft s) (typing s)
    (typingLabel s) (liveMessages s) (activityItems s) (receipts s)
    (streamBuffer s) (displayedStream s) (otherSession s) (wsConnected s)
    (uiWsConnected s) (seenKeys s) (streamBufferRef s) (revealedLen s)
    (revealRaf s) v (pendingFinalize s) (otherSessionTimer s) (wsRef s)
    (wsReconnectAttempts s) (wsReconnectTimer s) (userPickedSession s)
    (sent s) (queryEffects s).
Definition set_pendingFinalize (v : option string) (s : ChatState) : ChatState :=
  mkChat (selectedAgent s) (selectedSession s) (draft s) (typing s)
    (typingLabel s) (liveMessages s) (activityItems s) (receipts s)
    (streamBuffer s) (displayedStream s) (otherSession s) (wsConnected s)
    (uiWsConnected s) (seenKeys s) (streamBufferRef s) (revealedLen s)
    (revealRaf s) (isStreaming s) v (otherSessionTimer s) (wsRef s)
    (wsReconnectAttempts s) (wsReconnectTimer s) (userPickedSession s)
    (sent s) (queryEffects s).
Definition set_otherSessionTimer (v : bool) (s : ChatState) : ChatState :=
  mkChat (selectedAgent s) (selectedSession s) (draft s) (typing s)
    (typingLabel s) (liveMessages s) (activityItems s) (receipts s)
    (streamBuffer s) (displayedStream s) (otherSession s) (wsConnected s)
    (uiWsConnected s) (seenKeys s) (streamBufferRef s) (revealedLen s)
    (revealRaf s) (isStreaming s) (pendingFinalize s) v (wsRef s)
    (wsReconnectAttempts s) (wsReconnectTimer s) (userPickedSession s)
    (sent s) (queryEffects s).
Definition set_wsRef (v : option ReadyState) (s : ChatState) : ChatState :=
  mkChat (selectedAgent s) (selectedSession s) (draft s) (typing s)
    (typingLabel s) (liveMessages s) (activityItems s) (receipts s)
    (streamBuffer s) (displayedStream s) (otherSession s) (wsConnected s)
    (uiWsConnected s) (seenKeys s) (streamBufferRef s) (revealedLen s)
    (revealRaf s) (isStreaming s) (pendingFinalize s) (otherSessionTimer s) v
    (wsReconnectAttempts s) (wsReconnectTimer s) (userPickedSession s)
    (sent s) (queryEffects s).
Definition set_wsReconnectAttempts (v : nat) (s : ChatState) : ChatState :=
  mkChat (selectedAgent s) (selectedSession s) (draft s) (typing s)
    (typingLabel s) (liveMessages s) (activityItems s) (receipts s)
    (streamBuffer s) (displayedStream s) (otherSession s) (wsConnected s)
    (uiWsConnected s) (seenKeys s) (streamBufferRef s) (revealedLen s)
    (revealRaf s) (isStreaming s) (pendingFinalize s) (otherSessionTimer s)
    (wsRef s) v (wsReconnectTimer s) (userPickedSession s) (sent s)
    (queryEffects s).
Definition set_wsReconnectTimer (v : option Z) (s : ChatState) : ChatState :=
  mkChat (selectedAgent s) (selectedSession s) (draft s) (typing s)
    (typingLabel s) (liveMessages s) (activityItems s) (receipts s)
    (streamBuffer s) (displayedStream s) (otherSession s) (wsConnected s)
    (uiWsConnected s) (seenKeys s) (streamBufferRef s) (revealedLen s)
    (revealRaf s) (isStreaming s) (pendingFinalize s) (otherSessionTimer s)
    (wsRef s) (wsReconnectAttempts s) v (userPickedSession s) (sent s)
    (queryEffects s).
Definition set_userPickedSession (v : bool) (s : ChatState) : ChatState :=
  mkChat (selectedAgent s) (selectedSession s) (draft s) (typing s)
    (typingLabel s) (liveMessages s) (activityItems s) (receipts s)
    (streamBuffer s) (displayedStream s) (otherSession s) (wsConnected s)
    (uiWsConnected s) (seenKeys s) (streamBufferRef s) (revealedLen s)
    (revealRaf s) (isStreaming s) (pendingFinalize s) (otherSessionTimer s)
    (wsRef s) (wsReconnectAttempts s) (wsReconnectTimer s) v (sent s)
    (queryEffects s).
Definition set_sent (v : list ClientCommand) (s : ChatState) : ChatState :=
  mkChat (selectedAgent s) (selectedSession s) (draft s) (typing s)
    (typingLabel s) (liveMessages s) (activityItems s) (receipts s)
    (streamBuffer s) (displayedStream s) (otherSession s) (wsConnected s)
    (uiWsConnected s) (seenKeys s) (streamBufferRef s) (revealedLen s)
    (revealRaf s) (isStreaming s) (pendingFinalize s) (otherSessionTimer s)
    (wsRef s) (wsReconnectAttempts s) (wsReconnectTimer s)
    (userPickedSession s) v (queryEffects s).
Definition set_queryEffects (v : list QueryEffect) (s : ChatState) : ChatState :=
  mkChat (selectedAgent s) (selectedSession s) (draft s) (typing s)
    (typingLabel s) (liveMessages s) (activityItems s) (receipts s)
    (streamBuffer s) (displayedStream s) (otherSession s) (wsConnected s)
    (uiWsConnected s) (seenKeys s) (streamBufferRef s) (revealedLen s)
    (revealRaf s) (isStreaming s) (pendingFinalize s) (otherSessionTimer s)
    (wsRef s) (wsReconnectAttempts s) (wsReconnectTimer s)
    (userPickedSession s) (sent s) v.


(** *** Helpers of the handlers *)

(** A string that is true as a condition. *)
Definition nonEmpty (s : string) : bool := negb (String.eqb s "").

(** The initial value of [typingLabel]. *)
Definition thinkingLabel : string := "Thinking…".

(** [appendActivity]: at most the last 199 items are kept before the new one. *)
Definition appendActivity (now : Z) (text : string) (kind : ActivityKind)
    (st : ChatState) : ChatState :=
  set_activityItems
    (lastN 199 (activityItems st) ++ [mkActivity text now kind]) st.

(** The body of the reveal effect, after its cleanup has cancelled the frame
    the previous run scheduled. *)
Definition revealEffect (st : ChatState) : ChatState :=
  let full := streamBufferRef st in
  if isStreaming st
     || ((0 <? String.length full)%nat
         && (revealedLen st <? String.length full)%nat)
  then set_revealRaf true st
  else set_revealRaf false st.

(** The render that follows a handler: the reveal effect depends on
    [streamBuffer] and runs again only when that cell has changed. *)
Definition commitStream (before : string) (st : ChatState) : ChatState :=
  if String.eqb before (streamBuffer st) then st else revealEffect st.

(** The closure stored in [pendingFinalizeRef], which captured [content]. *)
Definition runFinalize (now : Z) (content : string) (st : ChatState)
    : ChatState :=
  let st1 :=
    if nonEmpty content then
      let key := messageKey (Some "assistant") (JString content) (Some now) in
      let baseKey := messageBaseKey (Some "assistant") (JString content) in
      set_liveMessages
        (liveMessages st ++ [mkLive "assistant" content now])
        (set_seenKeys ({[ baseKey ]} ∪ ({[ key ]} ∪ seenKeys st)) st)
    else st in
  set_typing false
    (set_displayedStream ""
       (set_streamBuffer ""
          (set_revealedLen 0%nat (set_streamBufferRef "" st1)))).

(** [CHARS_PER_FRAME]. *)
Definition CHARS_PER_FRAME : nat := 3.

(** One animation frame of the reveal loop, [tick]. A frame fires only when
    one is scheduled. *)
Definition tick (now : Z) (st : ChatState) : ChatState :=
  if negb (revealRaf st) then st
  else
    let full := streamBufferRef st in
    commitStream (streamBuffer st)
      (if (revealedLen st <? String.length full)%nat then
         let r := Nat.min (revealedLen st + CHARS_PER_FRAME) (String.length full) in
         set_revealRaf true
           (set_displayedStream (slice0 r full) (set_revealedLen r st))
       else if negb (isStreaming st) && (0 <? String.length full)%nat then
         let st1 := set_revealRaf false st in
         match pendingFinalize st1 with
         | Some content => set_pendingFinalize None (runFinalize now content st1)
         | None => st1
         end
       else if isStreaming st then set_revealRaf true st
       else set_revealRaf false st).

(** The session-reset effect on [[selectedAgent, selectedSession]]. *)
Definition resetLive (st : ChatState) : ChatState :=
  set_otherSession None
    (set_typingLabel thinkingLabel
       (set_typing false
          (set_displayedStream ""
             (set_streamBuffer ""
                (set_pendingFinalize None
                   (set_isStreaming false
                      (set_revealedLen 0%nat
                         (set_streamBufferRef ""
                            (set_seenKeys ∅
                               (set_receipts []
                                  (set_activityItems []
                                     (set_liveMessages [] st)))))))))))).

(** [setSelectedSession(v)] and the render it causes. *)
Definition setSelectedSession (v : string) (st : ChatState) : ChatState :=
  if String.eqb v (selectedSession st) then st
  else commitStream (streamBuffer st) (resetLive (set_selectedSession v st)).

(** [setSelectedAgent(v)] and the render it causes. *)
Definition setSelectedAgent (v : string) (st : ChatState) : ChatState :=
  if String.eqb v (selectedAgent st) then st
  else commitStream (streamBuffer st) (resetLive (set_selectedAgent v st)).

(** The agent picker's [onValueChange]. *)
Definition pickAgent (v : string) (st : ChatState) : ChatState :=
  setSelectedAgent v (set_userPickedSession false st).

(** The session picker's [onValueChange]. *)
Definition pickSession (v : string) (st : ChatState) : ChatState :=
  setSelectedSession v (set_userPickedSession true st).

(** The effect that keeps the viewed session among the listed ones;
    [sessions] are the ids of the sorted list, [current] the answer of
    [getCurrentSession]. *)
Definition autoSelectSession (sessions : list string) (current : option string)
    (st : ChatState) : ChatState :=
  let listed (x : string) : bool := bool_decide (x ∈ sessions) in
  match sessions with
  | [] => setSelectedSession "" st
  | first :: _ =>
      if userPickedSession st && nonEmpty (selectedSession st)
         && listed (selectedSession st) then st
      else
        match current with
        | Some c =>
            if nonEmpty c && listed c then setSelectedSession c st
            else if negb (nonEmpty (selectedSession st))
                    || negb (listed (selectedSession st))
                 then setSelectedSession first st
                 else st
        | None =>
            if negb (nonEmpty (selectedSession st))
               || negb (listed (selectedSession st))
            then setSelectedSession first st
            else st
        end
  end.

(** [jumpToOtherSession], once the refetch it awaits has resolved. *)
Definition jumpToOtherSession (st : ChatState) : ChatState :=
  match otherSession st with
  | None => st
  | Some (id, _) =>
      set_otherSession None
        (setSelectedSession id (set_userPickedSession true st))
  end.

(** The banner's auto-clear timeout fires. *)
Definition bannerTimeout (st : ChatState) : ChatState :=
  if otherSessionTimer st
  then set_otherSessionTimer false (set_otherSession None st)
  else st.


(** *** The socket's [onmessage] handler *)

(** [payload.agent ?? payload.agent_id ?? ""]. *)
Definition eventAgent (payload : GatewayEvent) : string :=
  match ev_agent payload with
  | Some a => a
  | None => default "" (ev_agent_id payload)
  end.

(** [payload.session ?? payload.session_id ?? null]. *)
Definition eventSession (payload : GatewayEvent) : option string :=
  match ev_session payload with
  | Some s => Some s
  | None => ev_session_id payload
  end.

(** [payload.tool ?? "tool"]. *)
Definition toolName (payload : GatewayEvent) : string :=
  default "tool" (ev_tool payload).

(** The banner text chosen from the event kind. *)
Definition otherSessionDetail (type : string) (payload : GatewayEvent) : string :=
  if String.eqb type "tool_start" then "running " +:+ toolName payload
  else if String.eqb type "stream_delta" then "responding..."
  else if String.eqb type "typing_start" then "thinking..."
  else if String.eqb type "turn_receipt" then "completed turn"
  else "working...".

(** The events after which the banner is left to expire. *)
Definition isTerminal (type : string) (payload : GatewayEvent) : bool :=
  String.eqb type "turn_receipt" || String.eqb type "typing_stop"
  || (String.eqb type "stream_delta" && default false (ev_done payload)).

(** The other-session branch: banner and its timer, nothing else. *)
Definition otherSessionBranch (type : string) (eventSession : string)
    (payload : GatewayEvent) (st : ChatState) : ChatState :=
  set_otherSessionTimer (isTerminal type payload)
    (set_otherSession
       (Some (eventSession, otherSessionDetail type payload)) st).

(** The receipt built from a [turn_receipt] event. *)
Definition receiptOfEvent (now : Z) (payload : GatewayEvent) : ReceiptItem :=
  let tokens := ev_tokens payload in
  let calls := default [] (ev_tool_calls payload) in
  {| r_timestamp := now;
     r_prompt := default 0 (tokens ≫= prompt_tokens);
     r_completion := default 0 (tokens ≫= completion_tokens);
     r_total := default 0 (tokens ≫= total_tokens);
     r_durationMs := ev_duration_ms payload;
     r_modelCalls := ev_model_calls payload;
     r_tools :=
       (fun c => mkReceiptTool (default "tool" (tc_tool c))
                   (default true (tc_success c)) (tc_duration_ms c)) <$> calls;
     r_toolCalls :=
       (fun c => mkReceiptToolCall (default "unknown" (tc_tool c))
                   (default "" (tc_args_summary c))
                   (default true (tc_success c))
                   (default 0 (tc_duration_ms c)) (tc_error c)) <$> calls |}.

(** The [stream_delta] branch. *)
Definition onStreamDelta (now : Z) (payload : GatewayEvent) (st : ChatState)
    : ChatState :=
  let st1 :=
    match ev_delta payload with
    | Some delta =>
        if nonEmpty delta then
          let buf := streamBufferRef st +:+ delta in
          set_streamBuffer buf (set_isStreaming true (set_streamBufferRef buf st))
        else st
    | None => st
    end in
  if default false (ev_done payload) then
    let st2 := set_isStreaming false st1 in
    let content := trim (streamBufferRef st2) in
    let st3 := set_pendingFinalize (Some content) st2 in
    if nonEmpty (streamBufferRef st3) then
      set_streamBuffer (streamBufferRef st3) st3
    else set_pendingFinalize None (runFinalize now content st3)
  else st1.

(** The [session_message] branch. *)
Definition onSessionMessage (now : Z) (payload : GatewayEvent) (st : ChatState)
    : ChatState :=
  let role := default "assistant" (ev_role payload) in
  let content :=
    toText (js_nullish (ev_content payload)
              (js_nullish (ev_message payload) (ev_response payload))) in
  let key := messageKey (Some role) (JString content) (ev_timestamp payload) in
  let baseKey := messageBaseKey (Some role) (JString content) in
  if bool_decide (key ∈ seenKeys st) || bool_decide (baseKey ∈ seenKeys st)
  then st
  else
    set_liveMessages
      (liveMessages st
         ++ [mkLive role content (default now (ev_timestamp payload))])
      (set_seenKeys ({[ baseKey ]} ∪ ({[ key ]} ∪ seenKeys st)) st).

(** The branches taken for an event of the viewed session, by kind. *)
Definition handleViewed (now : Z) (type : string) (payload : GatewayEvent)
    (st : ChatState) : ChatState :=
  if String.eqb type "session_created" then
    appendActivity now "Session rotated" KInfo
      (set_queryEffects
         (queryEffects st
            ++ [InvalidateSessions (selectedAgent st);
                InvalidateCurrentSession (selectedAgent st)]) st)
  else if String.eqb type "typing_start" then
    set_typingLabel thinkingLabel (set_typing true st)
  else if String.eqb type "typing_stop" then
    set_typingLabel thinkingLabel (set_typing false st)
  else if String.eqb type "tool_start" then
    appendActivity now ("Tool start: " +:+ toolName payload) KTool
      (set_typingLabel ("Running " +:+ toolName payload +:+ "…")
         (set_typing true st))
  else if String.eqb type "tool_end" then
    appendActivity now ("Tool done: " +:+ toolName payload) KTool
      (set_typingLabel thinkingLabel (set_typing true st))
  else if String.eqb type "tool_error" then
    appendActivity now
      ("Tool error: " +:+ toolName payload +:+ " ("
         +:+ toText (js_or (ev_error payload) (ev_message payload)) +:+ ")")
      KError
      (set_typingLabel "Tool error…" (set_typing true st))
  else if String.eqb type "stream_delta" then onStreamDelta now payload st
  else if String.eqb type "session_message" then onSessionMessage now payload st
  else if String.eqb type "slash_response" then
    appendActivity now "Slash command completed" KInfo
      (set_liveMessages
         (liveMessages st
            ++ [mkLive "system"
                  (toText (js_nullish (ev_response payload) (ev_content payload)))
                  now])
         (set_typing false st))
  else if String.eqb type "slash_error" then
    appendActivity now "Slash command failed" KError
      (set_liveMessages
         (liveMessages st
            ++ [mkLive "system"
                  ("Error: "
                     +:+ toText (js_nullish (ev_error payload) (ev_content payload)))
                  now])
         (set_typing false st))
  else if String.eqb type "turn_receipt" then
    set_receipts (lastN 39 (receipts st) ++ [receiptOfEvent now payload]) st
  else st.

(** The body of [ws.onmessage] on a frame that parsed. *)
Definition handleEvent (now : Z) (payload : GatewayEvent) (st : ChatState)
    : ChatState :=
  match ev_type payload with
  | None => st
  | Some type =>
      if negb (nonEmpty type) then st
      else if String.eqb type "agent_list" && bool_decide (is_Some (ev_agents payload))
      then set_queryEffects (queryEffects st ++ [InvalidateAgents]) st
      else if negb (String.eqb (eventAgent payload) (selectedAgent st)) then st
      else
        let currentSession := selectedSession st in
        match eventSession payload with
        | Some es =>
            if nonEmpty es && nonEmpty currentSession
               && negb (String.eqb es currentSession)
            then otherSessionBranch type es payload st
            else handleViewed now type payload st
        | None => handleViewed now type payload st
        end
  end.

(** [ws.onmessage] and the render that follows it. *)
Definition onmessage (now : Z) (payload : GatewayEvent) (st : ChatState)
    : ChatState :=
  commitStream (streamBuffer st) (handleEvent now payload st).

(** A raw frame: [None] is a frame [JSON.parse] rejects, which is dropped. *)
Definition onframe (now : Z) (data : option GatewayEvent) (st : ChatState)
    : ChatState :=
  match data with
  | Some payload => onmessage now payload st
  | None => st
  end.

(** *** The socket's life cycle and the compose box *)

(** [connect]: a new socket, not yet open. *)
Definition connect (st : ChatState) : ChatState :=
  set_wsReconnectTimer None (set_wsRef (Some CONNECTING) st).

(** [ws.onopen], fired once the socket is open. *)
Definition onopen (st : ChatState) : ChatState :=
  set_wsReconnectAttempts 0%nat
    (set_uiWsConnected true (set_wsConnected true (set_wsRef (Some OPEN) st))).

(** [ws.onclose]: reconnect after [min(1000 * 2 ** attempts, 15000)] ms. *)
Definition onclose (st : ChatState) : ChatState :=
  let delay := Z.min (1000 * 2 ^ Z.of_nat (wsReconnectAttempts st)) 15000 in
  set_wsReconnectTimer (Some delay)
    (set_wsReconnectAttempts (S (wsReconnectAttempts st))
       (set_typing false
          (set_wsRef None
             (set_uiWsConnected false (set_wsConnected false st))))).

(** The header's status socket, [useGatewayStatusSocket] of [lib/ws.ts],
    writes the same shared flag when it opens and when it closes. *)
Definition statusSocket (opened : bool) (st : ChatState) : ChatState :=
  set_uiWsConnected opened st.

(** [wsRef.current && wsRef.current.readyState === WebSocket.OPEN]. *)
Definition socketOpen (st : ChatState) : bool :=
  match wsRef st with
  | Some OPEN => true
  | _ => false
  end.

(** [sendMessage]. *)
Definition sendMessage (now : Z) (st : ChatState) : ChatState :=
  let content := trim (draft st) in
  if negb (nonEmpty content) || negb (socketOpen st) then st
  else
    let key := messageKey (Some "user") (JString content) None in
    let baseKey := messageBaseKey (Some "user") (JString content) in
    set_draft ""
      (set_typingLabel thinkingLabel
         (set_typing true
            (set_liveMessages (liveMessages st ++ [mkLive "user" content now])
               (set_seenKeys ({[ baseKey ]} ∪ ({[ key ]} ∪ seenKeys st))
                  (set_sent (sent st ++ [mkCommand content (selectedAgent st)])
                     st))))).

(** [startNewSession]. *)
Definition startNewSession (now : Z) (st : ChatState) : ChatState :=
  if negb (socketOpen st) then st
  else
    set_queryEffects (queryEffects st ++ [RefetchSessionsLater])
      (set_userPickedSession false
         (set_liveMessages
            (liveMessages st ++ [mkLive "system" "New session started" now])
            (set_sent (sent st ++ [mkCommand "/new" (selectedAgent st)]) st))).

(** The state of a freshly mounted route, before its socket has opened. *)
Definition initialState : ChatState :=
  {| selectedAgent := "default"; selectedSession := ""; draft := "";
     typing := false; typingLabel := thinkingLabel; liveMessages := [];
     activityItems := []; receipts := []; streamBuffer := "";
     displayedStream := ""; otherSession := None; wsConnected := true;
     uiWsConnected := false; seenKeys := ∅; streamBufferRef := "";
     revealedLen := 0%nat; revealRaf := false; isStreaming := false;
     pendingFinalize := None; otherSessionTimer := false;
     wsRef := Some CONNECTING; wsReconnectAttempts := 0%nat;
     wsReconnectTimer := None; userPickedSession := false; sent := [];
     queryEffects := [] |}.

(** What can happen to the route. *)
Inductive Input : Type :=
  | Frame (now : Z) (data : option GatewayEvent)
  | Tick (now : Z)
  | Send (now : Z)
  | NewSession (now : Z)
  | Draft (text : string)
  | PickAgent (v : string)
  | PickSession (v : string)
  | AutoSelect (sessions : list string) (current : option string)
  | Jump
  | BannerTimeout
  | SocketOpen
  | SocketClose
  | Reconnect
  | StatusSocket (opened : bool).

Definition step (i : Input) (st : ChatState) : ChatState :=
  match i with
  | Frame now data => onframe now data st
  | Tick now => tick now st
  | Send now => sendMessage now st
  | NewSession now => startNewSession now st
  | Draft text => set_draft text st
  | PickAgent v => pickAgent v st
  | PickSession v => pickSession v st
  | AutoSelect sessions current => autoSelectSession sessions current st
  | Jump => jumpToOtherSession st
  | BannerTimeout => bannerTimeout st
  | SocketOpen => onopen st
  | SocketClose => onclose st
  | Reconnect => connect st
  | StatusSocket opened => statusSocket opened st
  end.

(** Inputs applied oldest first. *)
Definition run (inputs : list Input) (st : ChatState) : ChatState :=
  fold_left (fun s i => step i s) inputs st.

(** The states the route can be in. *)
Definition reachable (st : ChatState) : Prop :=
  ∃ inputs, st = run inputs initialState.

(** *** The agent effect, the receipts shown and the slash palette *)

(** The effect that keeps the selected agent among the listed ones. *)
Definition autoSelectAgent (agentIds : list string) (st : ChatState)
    : ChatState :=
  match agentIds with
  | [] => st
  | first :: _ =>
      if bool_decide (selectedAgent st ∈ agentIds) then st
      else set_userPickedSession false (setSelectedAgent first st)
  end.

(** [allReceipts]: the fetched receipts, then the live ones whose timestamp
    no fetched receipt carries. *)
Definition allReceipts (persistedReceipts receipts : list ReceiptItem)
    : list ReceiptItem :=
  match persistedReceipts with
  | [] => receipts
  | _ =>
    let persistedTs : gset Z := list_to_set (r_timestamp <$> persistedReceipts) in
    let dedupedLive :=
      List.filter (fun r => negb (bool_decide (r_timestamp r ∈ persistedTs)))
        receipts in
    (persistedReceipts ++ dedupedLive)%list
  end.

(** [recentReceiptTokens]: the total tokens of the last six receipts shown. *)
Definition recentReceiptTokens (allReceipts : list ReceiptItem) : Z :=
  fold_left (fun sum r => sum + r_total r) (lastN 6 allReceipts) 0.

(** [a % b] on integers: the remainder takes the sign of the dividend. *)
Definition jsRem (a b : Z) : Z := Z.rem a b.

(** The updaters [handleKeyDown] gives [setSlashIdx] on [ArrowDown] and on
    [ArrowUp], for a palette of [n] entries. *)
Definition arrowDown (n i : Z) : Z := jsRem (i + 1) n.

Definition arrowUp (n i : Z) : Z := jsRem (i - 1 + n) n.


End Web.

(** ** The legacy view, [static/views/chat.js], and its socket owner,
    [static/app.js] *)

Module Legacy.

(** A message timestamp as the legacy view meets it: absent, a number, or
    a date string, which carries the epoch milliseconds
    [new Date(s).getTime()] yields for it. *)
Inductive TsValue : Type :=
  | TsMissing
  | TsNumber (n : Z)
  | TsString (s : string) (ms : Z).

(** [tsMs]: timestamps normalised to milliseconds. *)
Definition tsMs (v : TsValue) : Z :=
  match v with
  | TsMissing => 0
  | TsNumber n => if n =? 0 then 0 else if n <? 10 ^ 12 then n * 1000 else n
  | TsString s ms => if String.eqb s "" then 0 else ms
  end.


(** [a || b] on optional strings. *)
Definition orStr (a b : option string) : option string :=
  match a with
  | Some x => if String.eqb x "" then b else a
  | None => b
  end.

(** [a || "literal"]. *)
Definition orLit (a : option string) (d : string) : string :=
  default d (orStr a (Some d)).

(** [ts || ""] inside a string concatenation. *)
Definition tsText (ts : TsValue) : string :=
  match ts with
  | TsMissing => ""
  | TsNumber n => if n =? 0 then "" else numberToString n
  | TsString s _ => s
  end.

(** [msgKey]. *)
Definition msgKey (role content : option string) (ts : TsValue) : string :=
  orLit role "" +:+ "|" +:+ slice0 120 (orLit content "") +:+ "|" +:+ tsText ts.

(** [contentKey]. *)
Definition contentKey (role content : option string) : string :=
  orLit role "" +:+ "|" +:+ slice0 120 (orLit content "").

(** The fields of a message object that the view reads, on a history entry
    and on an event alike. *)
Record MsgData : Type := mkMsg {
  m_role : option string;
  m_content : option string;
  m_response : option string;
  m_message : option string;
  m_timestamp : TsValue
}.

(** The fields of a receipt that [addReceiptSummary] and the history
    interleaving read. *)
Record Receipt : Type := mkReceipt {
  started_at : option Z;
  duration_ms : option Z;
  tokens : option WireTokens;
  model_calls : option Z;
  tool_calls : option (list WireToolCall)
}.

(** An event as [onEvent] receives it. *)
Record Event : Type := mkEvent {
  ev_type : option string;
  ev_agents : option (list string);
  ev_agent : option string;
  ev_agent_id : option string;
  ev_session : option string;
  ev_session_id : option string;
  ev_msg : MsgData;
  ev_error : option string;
  ev_delta : option string;
  ev_done : option bool;
  ev_tool : option string;
  ev_receipt : Receipt
}.

(** A line of a tool-activity block. *)
Record ToolLine : Type := mkToolLine {
  tl_tool : string;
  tl_icon : string;
  tl_detail : string;
  tl_classes : list string;
  tl_durations : list Z
}.

(** A child of the message list, by the call that built it. *)
Inductive Node : Type :=
  | NUser (text : string) (ts : TsValue)
  | NSystem (text : string)
  | NAssistant (data : MsgData)
  | NStreaming
  | NStreamed (text : string)
  | NActivityOpen
  | NActivity (lines : list ToolLine)
  | NReceipt (receipt : Receipt).

Record Toast : Type := mkToast {
  toast_message : string;
  toast_type : string
}.

Inductive RestRequest : Type :=
  | ListAgents
  | ListSessions (agent : string)
  | GetSession (agent sid : string)
  | GetReceipts (agent sid : string).

Record View : Type := mkView {
  ws : option ReadyState;  (* state.ws and its readyState *)
  wsConnected : bool;  (* state.wsConnected *)
  backoff : Z;  (* reconnect delay of app.js, in ms *)
  toasts : list Toast;  (* toasts shown, oldest first *)
  sent : list ClientCommand;  (* frames handed to WebSocket.send, oldest first *)
  requests : list RestRequest;  (* REST fetches started, oldest first *)
  globalAgent : string;  (* value of the header's agent select *)
  chatAgent : string;
  agentOptions : list string;  (* options of the chat's agent select *)
  agentSelected : string;  (* value of the chat's agent select *)
  sessionOptions : list string;  (* options of the chat's session select *)
  sessionSelected : option string;  (* selected option of the session select *)
  currentSessionId : option string;  (* the session being viewed *)
  activeServerSession : option string;  (* the session the server is running *)
  msgsEl : list Node;  (* children of the message list *)
  typingVisible : bool;
  typingLabel : string;
  bannerVisible : bool;
  bannerLabel : string;
  otherSessionTimer : option Z;  (* delay of the pending banner timeout *)
  seenMessages : gset string;
  pendingDedup : gmap string Z;
  streamingDiv : bool;  (* streamingDiv is not null *)
  streamingText : string;
  activityBlock : option (list ToolLine);  (* lines of the block activityBlock refers to *)
  activityStartTimes : gmap string Z;
  inputValue : string  (* the compose box *)
}.

Definition put_ws (v : option ReadyState) (s : View) : View :=
  mkView v (wsConnected s) (backoff s) (toasts s) (sent s) (requests s)
    (globalAgent s) (chatAgent s) (agentOptions s) (agentSelected s)
    (sessionOptions s) (sessionSelected s) (currentSessionId s)
    (activeServerSession s) (msgsEl s) (typingVisible s) (typingLabel s)
    (bannerVisible s) (bannerLabel s) (otherSessionTimer s) (seenMessages s)
    (pendingDedup s) (streamingDiv s) (streamingText s) (activityBlock s)
    (activityStartTimes s) (inputValue s).
Definition put_wsConnected (v : bool) (s : View) : View :=
  mkView (ws s) v (backoff s) (toasts s) (sent s) (requests s) (globalAgent s)
    (chatAgent s) (agentOptions s) (agentSelected s) (sessionOptions s)
    (sessionSelected s) (currentSessionId s) (activeServerSession s)
    (msgsEl s) (typingVisible s) (typingLabel s) (bannerVisible s)
    (bannerLabel s) (otherSessionTimer s) (seenMessages s) (pendingDedup s)
    (streamingDiv s) (streamingText s) (activityBlock s)
    (activityStartTimes s) (inputValue s).
Definition put_backoff (v : Z) (s : View) : View :=
  mkView (ws s) (wsConnected s) v (toasts s) (sent s) (requests s)
    (globalAgent s) (chatAgent s) (agentOptions s) (agentSelected s)
    (sessionOptions s) (sessionSelected s) (currentSessionId s)
    (activeServerSession s) (msgsEl s) (typingVisible s) (typingLabel s)
    (bannerVisible s) (bannerLabel s) (otherSessionTimer s) (seenMessages s)
    (pendingDedup s) (streamingDiv s) (streamingText s) (activityBlock s)
    (activityStartTimes s) (inputValue s).
Definition put_toasts (v : list Toast) (s : View) : View :=
  mkView (ws s) (wsConnected s) (backoff s) v (sent s) (requests s)
    (globalAgent s) (chatAgent s) (agentOptions s) (agentSelected s)
    (sessionOptions s) (sessionSelected s) (currentSessionId s)
    (activeServerSession s) (msgsEl s) (typingVisible s) (typingLabel s)
    (bannerVisible s) (bannerLabel s) (otherSessionTimer s) (seenMessages s)
    (pendingDedup s) (streamingDiv s) (streamingText s) (activityBlock s)
    (activityStartTimes s) (inputValue s).
Definition put_sent (v : list ClientCommand) (s : View) : View :=
  mkView (ws s) (wsConnected s) (backoff s) (toasts s) v (requests s)
    (globalAgent s) (chatAgent s) (agentOptions s) (agentSelected s)
    (sessionOptions s) (sessionSelected s) (currentSessionId s)
    (activeServerSession s) (msgsEl s) (typingVisible s) (typingLabel s)
    (bannerVisible s) (bannerLabel s) (otherSessionTimer s) (seenMessages s)
    (pendingDedup s) (streamingDiv s) (streamingText s) (activityBlock s)
    (activityStartTimes s) (inputValue s).
Definition put_requests (v : list RestRequest) (s : View) : View :=
  mkView (ws s) (wsConnected s) (backoff s) (toasts s) (sent s) v
    (globalAgent s) (chatAgent s) (agentOptions s) (agentSelected s)
    (sessionOptions s) (sessionSelected s) (currentSessionId s)
    (activeServerSession s) (msgsEl s) (typingVisible s) (typingLabel s)
    (bannerVisible s) (bannerLabel s) (otherSessionTimer s) (seenMessages s)
    (pendingDedup s) (streamingDiv s) (streamingText s) (activityBlock s)
    (activityStartTimes s) (inputValue s).
Definition put_globalAgent (v : string) (s : View) : View :=
  mkView (ws s) (wsConnected s) (backoff s) (toasts s) (sent s) (requests s) v
    (chatAgent s) (agentOptions s) (agentSelected s) (sessionOptions s)
    (sessionSelected s) (currentSessionId s) (activeServerSession s)
    (msgsEl s) (typingVisible s) (typingLabel s) (bannerVisible s)
    (bannerLabel s) (otherSessionTimer s) (seenMessages s) (pendingDedup s)
    (streamingDiv s) (streamingText s) (activityBlock s)
    (activityStartTimes s) (inputValue s).
Definition put_chatAgent (v : string) (s : View) : View :=
  mkView (ws s) (wsConnected s) (backoff s) (toasts s) (sent s) (requests s)
    (globalAgent s) v (agentOptions s) (agentSelected s) (sessionOptions s)
    (sessionSelected s) (currentSessionId s) (activeServerSession s)
    (msgsEl s) (typingVisible s) (typingLabel s) (bannerVisible s)
    (bannerLabel s) (otherSessionTimer s) (seenMessages s) (pendingDedup s)
    (streamingDiv s) (streamingText s) (activityBlock s)
    (activityStartTimes s) (inputValue s).
Definition put_agentOptions (v : list string) (s : View) : View :=
  mkView (ws s) (wsConnected s) (backoff s) (toasts s) (sent s) (requests s)
    (globalAgent s) (chatAgent s) v (agentSelected s) (sessionOptions s)
    (sessionSelected s) (currentSessionId s) (activeServerSession s)
    (msgsEl s) (typingVisible s) (typingLabel s) (bannerVisible s)
    (bannerLabel s) (otherSessionTimer s) (seenMessages s) (pendingDedup s)
    (streamingDiv s) (streamingText s) (activityBlock s)
    (activityStartTimes s) (inputValue s).
Definition put_agentSelected (v : string) (s : View) : View :=
  mkView (ws s) (wsConnected s) (backoff s) (toasts s) (sent s) (requests s)
    (globalAgent s) (chatAgent s) (agentOptions s) v (sessionOptions s)
    (sessionSelected s) (currentSessionId s) (activeServerSession s)
    (msgsEl s) (typingVisible s) (typingLabel s) (bannerVisible s)
    (bannerLabel s) (otherSessionTimer s) (seenMessages s) (pendingDedup s)
    (streamingDiv s) (streamingText s) (activityBlock s)
    (activityStartTimes s) (inputValue s).
Definition put_sessionOptions (v : list string) (s : View) : View :=
  mkView (ws s) (wsConnected s) (backoff s) (toasts s) (sent s) (requests s)
    (globalAgent s) (chatAgent s) (agentOptions s) (agentSelected s) v
    (sessionSelected s) (currentSessionId s) (activeServerSession s)
    (msgsEl s) (typingVisible s) (typingLabel s) (bannerVisible s)
    (bannerLabel s) (otherSessionTimer s) (seenMessages s) (pendingDedup s)
    (streamingDiv s) (streamingText s) (activityBlock s)
    (activityStartTimes s) (inputValue s).
Definition put_sessionSelected (v : option string) (s : View) : View :=
  mkView (ws s) (wsConnected s) (backoff s) (toasts s) (sent s) (requests s)
    (globalAgent s) (chatAgent s) (agentOptions s) (agentSelected s)
    (sessionOptions s) v (currentSessionId s) (activeServerSession s)
    (msgsEl s) (typingVisible s) (typingLabel s) (bannerVisible s)
    (bannerLabel s) (otherSessionTimer s) (seenMessages s) (pendingDedup s)
    (streamingDiv s) (streamingText s) (activityBlock s)
    (activityStartTimes s) (inputValue s).
Definition put_currentSessionId (v : option string) (s : View) : View :=
  mkView (ws s) (wsConnected s) (backoff s) (toasts s) (sent s) (requests s)
    (globalAgent s) (chatAgent s) (agentOptions s) (agentSelected s)
    (sessionOptions s) (sessionSelected s) v (activeServerSession s)
    (msgsEl s) (typingVisible s) (typingLabel s) (bannerVisible s)
    (bannerLabel s) (otherSessionTimer s) (seenMessages s) (pendingDedup s)
    (streamingDiv s) (streamingText s) (activityBlock s)
    (activityStartTimes s) (inputValue s).
Definition put_activeServerSession (v : option string) (s : View) : View :=
  mkView (ws s) (wsConnected s) (backoff s) (toasts s) (sent s) (requests s)
    (globalAgent s) (chatAgent s) (agentOptions s) (agentSelected s)
    (sessionOptions s) (sessionSelected s) (currentSessionId s) v (msgsEl s)
    (typingVisible s) (typingLabel s) (bannerVisible s) (bannerLabel s)
    (otherSessionTimer s) (seenMessages s) (pendingDedup s) (streamingDiv s)
    (streamingText s) (activityBlock s) (activityStartTimes s) (inputValue s).
Definition put_msgsEl (v : list Node) (s : View) : View :=
  mkView (ws s) (wsConnected s) (backoff s) (toasts s) (sent s) (requests s)
    (globalAgent s) (chatAgent s) (agentOptions s) (agentSelected s)
    (sessionOptions s) (sessionSelected s) (currentSessionId s)
    (activeServerSession s) v (typingVisible s) (typingLabel s)
    (bannerVisible s) (bannerLabel s) (otherSessionTimer s) (seenMessages s)
    (pendingDedup s) (streamingDiv s) (streamingText s) (activityBlock s)
    (activityStartTimes s) (inputValue s).
Definition put_typingVisible (v : bool) (s : View) : View :=
  mkView (ws s) (wsConnected s) (backoff s) (toasts s) (sent s) (requests s)
    (globalAgent s) (chatAgent s) (agentOptions s) (agentSelected s)
    (sessionOptions s) (sessionSelected s) (currentSessionId s)
    (activeServerSession s) (msgsEl s) v (typingLabel s) (bannerVisible s)
    (bannerLabel s) (otherSessionTimer s) (seenMessages s) (pendingDedup s)
    (streamingDiv s) (streamingText s) (activityBlock s)
    (activityStartTimes s) (inputValue s).
Definition put_typingLabel (v : string) (s : View) : View :=
  mkView (ws s) (wsConnected s) (backoff s) (toasts s) (sent s) (requests s)
    (globalAgent s) (chatAgent s) (agentOptions s) (agentSelected s)
    (sessionOptions s) (sessionSelected s) (currentSessionId s)
    (activeServerSession s) (msgsEl s) (typingVisible s) v (bannerVisible s)
    (bannerLabel s) (otherSessionTimer s) (seenMessages s) (pendingDedup s)
    (streamingDiv s) (streamingText s) (activityBlock s)
    (activityStartTimes s) (inputValue s).
Definition put_bannerVisible (v : bool) (s : View) : View :=
  mkView (ws s) (wsConnected s) (backoff s) (toasts s) (sent s) (requests s)
    (globalAgent s) (chatAgent s) (agentOptions s) (agentSelected s)
    (sessionOptions s) (sessionSelected s) (currentSessionId s)
    (activeServerSession s) (msgsEl s) (typingVisible s) (typingLabel s) v
    (bannerLabel s) (otherSessionTimer s) (seenMessages s) (pendingDedup s)
    (streamingDiv s) (streamingText s) (activityBlock s)
    (activityStartTimes s) (inputValue s).
Definition put_bannerLabel (v : string) (s : View) : View :=
  mkView (ws s) (wsConnected s) (backoff s) (toasts s) (sent s) (requests s)
    (globalAgent s) (chatAgent s) (agentOptions s) (agentSelected s)
    (sessionOptions s) (sessionSelected s) (currentSessionId s)
    (activeServerSession s) (msgsEl s) (typingVisible s) (typingLabel s)
    (bannerVisible s) v (otherSessionTimer s) (seenMessages s)
    (pendingDedup s) (streamingDiv s) (streamingText s) (activityBlock s)
    (activityStartTimes s) (inputValue s).
Definition put_otherSessionTimer (v : option Z) (s : View) : View :=
  mkView (ws s) (wsConnected s) (backoff s) (toasts s) (sent s) (requests s)
    (globalAgent s) (chatAgent s) (agentOptions s) (agentSelected s)
    (sessionOptions s) (sessionSelected s) (currentSessionId s)
    (activeServerSession s) (msgsEl s) (typingVisible s) (typingLabel s)
    (bannerVisible s) (bannerLabel s) v (seenMessages s) (pendingDedup s)
    (streamingDiv s) (streamingText s) (activityBlock s)
    (activityStartTimes s) (inputValue s).
Definition put_seenMessages (v : gset string) (s : View) : View :=
  mkView (ws s) (wsConnected s) (backoff s) (toasts s) (sent s) (requests s)
    (globalAgent s) (chatAgent s) (agentOptions s) (agentSelected s)
    (sessionOptions s) (sessionSelected s) (currentSessionId s)
    (activeServerSession s) (msgsEl s) (typingVisible s) (typingLabel s)
    (bannerVisible s) (bannerLabel s) (otherSessionTimer s) v (pendingDedup s)
    (streamingDiv s) (streamingText s) (activityBlock s)
    (activityStartTimes s) (inputValue s).
Definition put_pendingDedup (v : gmap string Z) (s : View) : View :=
  mkView (ws s) (wsConnected s) (backoff s) (toasts s) (sent s) (requests s)
    (globalAgent s) (chatAgent s) (agentOptions s) (agentSelected s)
    (sessionOptions s) (sessionSelected s) (currentSessionId s)
    (activeServerSession s) (msgsEl s) (typingVisible s) (typingLabel s)
    (bannerVisible s) (bannerLabel s) (otherSessionTimer s) (seenMessages s) v
    (streamingDiv s) (streamingText s) (activityBlock s)
    (activityStartTimes s) (inputValue s).
Definition put_streamingDiv (v : bool) (s : View) : View :=
  mkView (ws s) (wsConnected s) (backoff s) (toasts s) (sent s) (requests s)
    (globalAgent s) (chatAgent s) (agentOptions s) (agentSelected s)
    (sessionOptions s) (sessionSelected s) (currentSessionId s)
    (activeServerSession s) (msgsEl s) (typingVisible s) (typingLabel s)
    (bannerVisible s) (bannerLabel s) (otherSessionTimer s) (seenMessages s)
    (pendingDedup s) v (streamingText s) (activityBlock s)
    (activityStartTimes s) (inputValue s).
Definition put_streamingText (v : string) (s : View) : View :=
  mkView (ws s) (wsConnected s) (backoff s) (toasts s) (sent s) (requests s)
    (globalAgent s) (chatAgent s) (agentOptions s) (agentSelected s)
    (sessionOptions s) (sessionSelected s) (currentSessionId s)
    (activeServerSession s) (msgsEl s) (typingVisible s) (typingLabel s)
    (bannerVisible s) (bannerLabel s) (otherSessionTimer s) (seenMessages s)
    (pendingDedup s) (streamingDiv s) v (activityBlock s)
    (activityStartTimes s) (inputValue s).
Definition put_activityBlock (v : option (list ToolLine)) (s : View) : View :=
  mkView (ws s) (wsConnected s) (backoff s) (toasts s) (sent s) (requests s)
    (globalAgent s) (chatAgent s) (agentOptions s) (agentSelected s)
    (sessionOptions s) (sessionSelected s) (currentSessionId s)
    (activeServerSession s) (msgsEl s) (typingVisible s) (typingLabel s)
    (bannerVisible s) (bannerLabel s) (otherSessionTimer s) (seenMessages s)
    (pendingDedup s) (streamingDiv s) (streamingText s) v
    (activityStartTimes s) (inputValue s).
Definition put_activityStartTimes (v : gmap string Z) (s : View) : View :=
  mkView (ws s) (wsConnected s) (backoff s) (toasts s) (sent s) (requests s)
    (globalAgent s) (chatAgent s) (agentOptions s) (agentSelected s)
    (sessionOptions s) (sessionSelected s) (currentSessionId s)
    (activeServerSession s) (msgsEl s) (typingVisible s) (typingLabel s)
    (bannerVisible s) (bannerLabel s) (otherSessionTimer s) (seenMessages s)
    (pendingDedup s) (streamingDiv s) (streamingText s) (activityBlock s) v
    (inputValue s).
Definition put_inputValue (v : string) (s : View) : View :=
  mkView (ws s) (wsConnected s) (backoff s) (toasts s) (sent s) (requests s)
    (globalAgent s) (chatAgent s) (agentOptions s) (agentSelected s)
    (sessionOptions s) (sessionSelected s) (currentSessionId s)
    (activeServerSession s) (msgsEl s) (typingVisible s) (typingLabel s)
    (bannerVisible s) (bannerLabel s) (otherSessionTimer s) (seenMessages s)
    (pendingDedup s) (streamingDiv s) (streamingText s) (activityBlock s)
    (activityStartTimes s) v.


(** *** [app.js]: toasts and the shared socket *)

(** [showToast(message, type)]. *)
Definition showToast (message type : string) (st : View) : View :=
  put_toasts (toasts st ++ [mkToast message (orLit (Some type) "info")]) st.

(** [state.ws && state.ws.readyState === WebSocket.OPEN]. *)
Definition socketOpen (st : View) : bool :=
  match ws st with
  | Some OPEN => true
  | _ => false
  end.

(** [sendCommand(text, targetAgent)]. *)
Definition sendCommand (text targetAgent : string) (st : View) : View :=
  if negb (socketOpen st) then showToast "Not connected" "error" st
  else
    let target :=
      orLit (orStr (Some targetAgent) (Some (globalAgent st))) "default" in
    put_sent (sent st ++ [mkCommand text target]) st.

(** [ws.onopen] of [connectWS]. *)
Definition appOnOpen (st : View) : View :=
  put_backoff 500 (put_wsConnected true (put_ws (Some OPEN) st)).

(** The delay [ws.onclose] waits before it reconnects. *)
Definition reconnectDelay (st : View) : Z := Z.min (backoff st) 15000.

(** [ws.onclose] of [connectWS]. *)
Definition appOnClose (st : View) : View :=
  put_backoff (Z.min (backoff st * 2) 15000)
    (put_ws None (put_wsConnected false st)).

(** *** [chat.js]: the pieces of the view *)

(** A string that is true as a condition. *)
Definition nonEmpty (s : string) : bool := negb (String.eqb s "").

(** [data.type === name]. *)
Definition isType (data : Event) (name : string) : bool :=
  match ev_type data with
  | Some t => String.eqb t name
  | None => false
  end.

(** [data.content || data.response || data.message]. *)
Definition msgContent (m : MsgData) : option string :=
  orStr (orStr (m_content m) (m_response m)) (m_message m).

(** [setTyping(active, label)]. *)
Definition setTyping (active : bool) (label : option string) (st : View) : View :=
  if active
  then put_typingVisible true (put_typingLabel (orLit label "Thinking…") st)
  else put_typingVisible false st.

(** [addUserMessage(text, timestamp)]. *)
Definition addUserMessage (text : string) (ts : TsValue) (st : View) : View :=
  put_msgsEl (msgsEl st ++ [NUser text ts]) st.

(** [addSystemMessage(text)]. *)
Definition addSystemMessage (text : string) (st : View) : View :=
  put_msgsEl (msgsEl st ++ [NSystem text]) st.

(** [addAssistantMessage(data)]. *)
Definition addAssistantMessage (data : MsgData) (st : View) : View :=
  put_msgsEl (msgsEl st ++ [NAssistant data]) st.

(** [showOtherSessionBanner(sessionId, detail)]. *)
Definition showOtherSessionBanner (sessionId : option string) (detail : string)
    (st : View) : View :=
  let label0 := orLit sessionId "another session" in
  let label :=
    if (30 <? String.length label0)%nat then slice0 28 label0 +:+ "…"
    else label0 in
  put_otherSessionTimer (Some 30000)
    (put_bannerVisible true
       (put_bannerLabel
          ("Agent is working in: " +:+ label
             +:+ (if nonEmpty detail then " — " +:+ detail else ""))
          st)).

(** [hideOtherSessionBanner]; also what the banner's timeout runs. *)
Definition hideOtherSessionBanner (st : View) : View :=
  put_otherSessionTimer None (put_bannerVisible false st).

(** [loadSessionList()], up to the fetch it starts. *)
Definition loadSessionList (st : View) : View :=
  put_requests (requests st ++ [ListSessions (chatAgent st)]) st.

(** [loadSession(sid)], up to the fetches it starts. *)
Definition loadSession (sid : string) (st : View) : View :=
  put_requests
    (requests st ++ [GetSession (chatAgent st) sid; GetReceipts (chatAgent st) sid])
    (addSystemMessage ("Loading session: " +:+ sid +:+ "…")
       (hideOtherSessionBanner
          (put_currentSessionId (Some sid)
             (put_pendingDedup ∅
                (put_seenMessages ∅ (put_msgsEl [] st)))))).

(** What runs once [loadSessionList()] has resolved. *)
Inductive AfterList : Type := ThenNothing | ThenLoad | ThenJump.

(** Setting [sessionSel.value]: a value that is no option selects nothing. *)
Definition selectSessionOption (v : string) (st : View) : View :=
  put_sessionSelected
    (if bool_decide (v ∈ sessionOptions st) then Some v else None) st.

(** The resolution of [loadSessionList()]: [sorted] are the ids of the
    listed sessions, receipts files left out, newest first; [cur] is the
    session id [getCurrentSession] reports. *)
Definition sessionListLoaded (k : AfterList) (sorted : list string)
    (cur : option string) (st : View) : View :=
  let activeId := orStr cur (head sorted) in
  let st1 :=
    put_currentSessionId (orStr activeId (head sorted))
      (put_sessionSelected
         (match activeId with
          | Some a => if bool_decide (a ∈ sorted) then Some a else head sorted
          | None => head sorted
          end)
         (put_sessionOptions sorted (put_activeServerSession activeId st))) in
  match k with
  | ThenNothing => st1
  | ThenLoad =>
      match activeId with
      | Some sid => if nonEmpty sid then loadSession sid st1 else st1
      | None => st1
      end
  | ThenJump =>
      match activeServerSession st1 with
      | Some a =>
          if nonEmpty a then loadSession a (selectSessionOption a st1) else st1
      | None => st1
      end
  end.

(** The same when the fetch failed: the promise resolves to [null]. *)
Definition sessionListFailed (k : AfterList) (st : View) : View :=
  match k with
  | ThenJump =>
      match activeServerSession st with
      | Some a =>
          if nonEmpty a then loadSession a (selectSessionOption a st) else st
      | None => st
      end
  | _ => st
  end.

(** [populateAgents(agents)]. *)
Definition populateAgents (agents : list string) (st : View) : View :=
  let prev := orLit (Some (agentSelected st)) (chatAgent st) in
  let value :=
    if bool_decide (prev ∈ agents) then prev else default "" (head agents) in
  put_chatAgent (orLit (Some value) "default")
    (put_agentSelected value (put_agentOptions agents st)).

(** *** Streaming *)

(** [getOrCreateStreamingMsg]. *)
Definition getOrCreateStreamingMsg (st : View) : View :=
  if streamingDiv st then st
  else
    put_streamingText ""
      (put_msgsEl (msgsEl st ++ [NStreaming]) (put_streamingDiv true st)).

(** [appendStreamDelta(delta)]. *)
Definition appendStreamDelta (delta : string) (st : View) : View :=
  let st1 := getOrCreateStreamingMsg st in
  put_streamingText (streamingText st1 +:+ delta) st1.

(** The element [streamingDiv] refers to stops being updated. *)
Definition settleStreaming (text : string) (dom : list Node) : list Node :=
  (fun n => match n with NStreaming => NStreamed text | _ => n end) <$> dom.

(** [finaliseStream]. *)
Definition finaliseStream (now : Z) (st : View) : View :=
  let st1 :=
    if streamingDiv st then
      put_pendingDedup
        (<[ contentKey (Some "assistant") (Some (streamingText st)) := now ]>
           (pendingDedup st))
        (put_msgsEl (settleStreaming (streamingText st) (msgsEl st)) st)
    else st in
  put_streamingText "" (put_streamingDiv false st1).

(** *** Tool activity *)

(** [getOrCreateActivityBlock]. *)
Definition getOrCreateActivityBlock (st : View) : View :=
  match activityBlock st with
  | Some _ => st
  | None =>
      put_msgsEl (msgsEl st ++ [NActivityOpen]) (put_activityBlock (Some []) st)
  end.

(** [addToolActivityLine(toolName, detail, icon)]. *)
Definition addToolActivityLine (toolName detail icon : string) (st : View)
    : View :=
  let st1 := getOrCreateActivityBlock st in
  let line :=
    mkToolLine toolName (orLit (Some icon) "⚡") detail ["tool-act-line"] [] in
  put_activityBlock (Some (default [] (activityBlock st1) ++ [line])%list) st1.

(** The last line of [lines] for [toolName], rewritten by [f]. *)
Fixpoint updateLastLine (toolName : string) (f : ToolLine -> ToolLine)
    (lines : list ToolLine) : option (list ToolLine) :=
  match lines with
  | [] => None
  | l :: rest =>
      match updateLastLine toolName f rest with
      | Some rest' => Some (l :: rest')
      | None =>
          if String.eqb (tl_tool l) toolName then Some (f l :: rest) else None
      end
  end.

(** [classList.add]. *)
Definition addClass (c : string) (classes : list string) : list string :=
  if bool_decide (c ∈ classes) then classes else (classes ++ [c])%list.

(** [finaliseToolLine(toolName, durationMs, isError)]. *)
Definition finaliseToolLine (toolName : string) (durationMs : option Z)
    (isError : bool) (st : View) : View :=
  match activityBlock st with
  | None => st
  | Some lines =>
      let finish (l : ToolLine) : ToolLine :=
        mkToolLine (tl_tool l)
          (if isError then "✗" else "✓")
          (if String.eqb (tl_detail l) "running…" then "" else tl_detail l)
          (addClass (if isError then "error" else "success") (tl_classes l))
          (tl_durations l ++ match durationMs with Some d => [d] | None => [] end)%list in
      match updateLastLine toolName finish lines with
      | Some lines' => put_activityBlock (Some lines') st
      | None => st
      end
  end.

(** The element [activityBlock] refers to stops being updated. *)
Definition settleActivity (lines : list ToolLine) (dom : list Node) : list Node :=
  (fun n => match n with NActivityOpen => NActivity lines | _ => n end) <$> dom.

(** [closeActivityBlock]. *)
Definition closeActivityBlock (st : View) : View :=
  put_activityStartTimes ∅
    (put_activityBlock None
       (match activityBlock st with
        | Some lines => put_msgsEl (settleActivity lines (msgsEl st)) st
        | None => st
        end)).

Definition isActivityNode (n : Node) : bool :=
  match n with
  | NActivityOpen | NActivity _ => true
  | _ => false
  end.

(** The children without the last tool-activity block among them. *)
Fixpoint removeLastActivity (dom : list Node) : option (list Node) :=
  match dom with
  | [] => None
  | n :: rest =>
      match removeLastActivity rest with
      | Some rest' => Some (n :: rest')
      | None => if isActivityNode n then Some rest else None
      end
  end.

(** [addReceiptSummary(receipt)]. *)
Definition addReceiptSummary (receipt : Receipt) (st : View) : View :=
  let st1 := put_msgsEl (default (msgsEl st) (removeLastActivity (msgsEl st))) st in
  let st2 := closeActivityBlock st1 in
  put_msgsEl (msgsEl st2 ++ [NReceipt receipt]) st2.


(** *** The fetched history *)

(** A stable sort by an integer key, as [Array.prototype.sort] with the
    comparator [key(a) - key(b)]. *)
Fixpoint insertByKey {A} (key : A -> Z) (x : A) (l : list A) : list A :=
  match l with
  | [] => [x]
  | y :: l' => if key x <=? key y then x :: l else y :: insertByKey key x l'
  end.

Definition sortByKey {A} (key : A -> Z) (l : list A) : list A :=
  foldr (insertByKey key) [] l.

(** The end of a receipt's turn, [started_at + duration_ms]. *)
Definition receiptEnd (r : Receipt) : Z :=
  default 0 (started_at r) + default 0 (duration_ms r).

(** The [while] loop after an assistant message: the receipts at the head of
    the queue that ended no later than 5 s after it. *)
Fixpoint drainReceipts (msgT : Z) (queue : list Receipt) (st : View)
    : list Receipt * View :=
  match queue with
  | r :: rest =>
      if receiptEnd r <=? msgT + 5000
      then drainReceipts msgT rest (addReceiptSummary r st)
      else (queue, st)
  | [] => ([], st)
  end.

(** The body of [msgs.forEach]. *)
Definition renderHistoryMessage (m : MsgData) (acc : list Receipt * View)
    : list Receipt * View :=
  let '(queue, st) := acc in
  let role := orLit (m_role m) "" in
  if String.eqb role "system" then acc
  else
    let key := msgKey (Some role) (m_content m) (m_timestamp m) in
    let st1 := put_seenMessages ({[ key ]} ∪ seenMessages st) st in
    let st2 :=
      if String.eqb role "user"
      then addUserMessage (orLit (m_content m) "") (m_timestamp m) st1
      else addAssistantMessage m st1 in
    if String.eqb role "assistant"
    then drainReceipts (tsMs (m_timestamp m)) queue st2
    else (queue, st2).

(** The resolution of the fetches of [loadSession(sid)]. *)
Definition sessionLoaded (sid : string) (msgs : list MsgData)
    (receipts : list Receipt) (st : View) : View :=
  let st0 := put_msgsEl [] st in
  match msgs with
  | [] => addSystemMessage ("Session " +:+ sid +:+ " (empty)") st0
  | _ =>
      let ordered := sortByKey (fun m => tsMs (m_timestamp m)) msgs in
      let receiptQueue := sortByKey (fun r => default 0 (started_at r)) receipts in
      let '(rest, st1) :=
        fold_left (fun acc m => renderHistoryMessage m acc) ordered
          (receiptQueue, st0) in
      addSystemMessage ("Loaded session: " +:+ sid)
        (fold_left (fun s r => addReceiptSummary r s) rest st1)
  end.

(** The rejection of the fetches of [loadSession(sid)]. *)
Definition sessionLoadFailed (sid : string) (st : View) : View :=
  addSystemMessage ("Failed to load session " +:+ sid) st.

(** *** [onEvent] *)

(** [data.agent || data.agent_id || ""]. *)
Definition eventAgent (data : Event) : string :=
  orLit (orStr (ev_agent data) (ev_agent_id data)) "".

(** [data.session || data.session_id || null]. *)
Definition eventSession (data : Event) : option string :=
  match orStr (ev_session data) (ev_session_id data) with
  | Some s => if nonEmpty s then Some s else None
  | None => None
  end.

(** [data.tool || "tool"]. *)
Definition toolName (data : Event) : string := orLit (ev_tool data) "tool".

(** A start time that is set, [activityStartTimes[tool] ? ... : null]. *)
Definition elapsedSince (now : Z) (tool : string) (st : View) : option Z :=
  match activityStartTimes st !! tool with
  | Some t => if t =? 0 then None else Some (now - t)
  | None => None
  end.

(** The branch for an event of another session than the viewed one. *)
Definition onOtherSession (eventSession : string) (data : Event) (st : View)
    : View :=
  let st1 := put_activeServerSession (Some eventSession) st in
  if isType data "typing_start" || isType data "tool_start"
     || isType data "stream_delta"
  then
    let detail :=
      if isType data "tool_start" then "running " +:+ toolName data
      else if isType data "stream_delta" then "responding…"
      else "thinking…" in
    showOtherSessionBanner (Some eventSession) detail st1
  else if isType data "typing_stop"
          || (isType data "stream_delta" && default false (ev_done data))
  then put_otherSessionTimer (Some 5000) st1
  else if isType data "turn_receipt"
  then put_otherSessionTimer (Some 5000) (loadSessionList st1)
  else st1.

(** The [session_message] branch: the echo of a message sent less than
    30 s ago is dropped. *)
Definition onSessionMessage (now : Z) (data : Event) (st : View) : View :=
  let m := ev_msg data in
  let key := msgKey (m_role m) (msgContent m) (m_timestamp m) in
  if bool_decide (key ∈ seenMessages st) then st
  else
    let cKey := contentKey (m_role m) (msgContent m) in
    let seen := put_seenMessages ({[ key ]} ∪ seenMessages st) in
    let render (s : View) : View :=
      if bool_decide (m_role m = Some "user")
      then addUserMessage (orLit (m_content m) "") (m_timestamp m) s
      else addAssistantMessage m s in
    match pendingDedup st !! cKey with
    | Some t =>
        if t =? 0 then render (seen st)
        else if now - t <? 30000 then seen st
        else render (seen (put_pendingDedup (delete cKey (pendingDedup st)) st))
    | None => render (seen st)
    end.

(** The branches for an event of the viewed session, by kind. *)
Definition onViewed (now : Z) (data : Event) (st : View) : View :=
  if isType data "typing_start" then setTyping true (Some "Thinking…") st
  else if isType data "typing_stop" then setTyping false None st
  else if isType data "tool_start" then
    addToolActivityLine (toolName data) "running…" "⚡"
      (put_activityStartTimes (<[ toolName data := now ]> (activityStartTimes st))
         (setTyping true (Some ("Running " +:+ toolName data +:+ "…")) st))
  else if isType data "tool_end" then
    let st1 := setTyping true (Some "Thinking…") st in
    let st2 :=
      finaliseToolLine (toolName data) (elapsedSince now (toolName data) st1)
        false st1 in
    put_activityStartTimes (delete (toolName data) (activityStartTimes st2)) st2
  else if isType data "stream_delta" then
    let st1 :=
      appendStreamDelta (orLit (ev_delta data) "")
        (closeActivityBlock (setTyping false None st)) in
    if default false (ev_done data) then finaliseStream now st1 else st1
  else if isType data "session_message" then onSessionMessage now data st
  else if isType data "slash_response" then
    addAssistantMessage
      (mkMsg (Some "system")
         (orStr (m_response (ev_msg data)) (m_content (ev_msg data)))
         None None TsMissing)
      (setTyping false None st)
  else if isType data "slash_error" then
    addAssistantMessage
      (mkMsg (Some "system")
         (Some ("Error: "
                  +:+ default "undefined"
                        (orStr (ev_error data) (m_content (ev_msg data)))))
         None None TsMissing)
      (setTyping false None st)
  else if isType data "tool_error" then
    let st1 :=
      setTyping true
        (Some ("Error in " +:+ toolName data +:+ " — retrying…")) st in
    let st2 :=
      finaliseToolLine (toolName data) (elapsedSince now (toolName data) st1)
        true st1 in
    put_activityStartTimes (delete (toolName data) (activityStartTimes st2)) st2
  else if isType data "turn_receipt" then addReceiptSummary (ev_receipt data) st
  else st.

(** [onEvent(data)]. *)
Definition onEvent (now : Z) (data : Event) (st : View) : View :=
  if isType data "agent_list" || isType data "list_agents" then
    match ev_agents data with
    | Some (a :: agents) => populateAgents (a :: agents) st
    | _ => st
    end
  else if negb (String.eqb (eventAgent data) (chatAgent st)) then st
  else
    match eventSession data with
    | Some es =>
        match currentSessionId st with
        | Some cur =>
            if nonEmpty cur && negb (String.eqb es cur)
            then onOtherSession es data st
            else onViewed now data (put_activeServerSession (Some es) st)
        | None => onViewed now data (put_activeServerSession (Some es) st)
        end
    | None => onViewed now data st
    end.

(** *** The compose box and the pickers *)

(** [sendMessage]. *)
Definition sendMessage (now : Z) (st : View) : View :=
  let text := trim (inputValue st) in
  if negb (nonEmpty text) then st
  else
    let st1 := sendCommand text (chatAgent st) st in
    let st2 := addUserMessage text TsMissing st1 in
    let st3 :=
      put_pendingDedup
        (<[ contentKey (Some "user") (Some text) := now ]> (pendingDedup st2))
        st2 in
    setTyping true (Some "Thinking…") (put_inputValue "" st3).

(** [onUserMessage(text, agent)]. *)
Definition onUserMessage (text agent : string) (st : View) : View :=
  if String.eqb agent (chatAgent st)
  then setTyping true (Some "Thinking…") (addUserMessage text TsMissing st)
  else st.

(** The agent select's change listener, up to the fetch it starts. *)
Definition agentChanged (v : string) (st : View) : View :=
  loadSessionList
    (hideOtherSessionBanner
       (put_globalAgent v (put_chatAgent v (put_agentSelected v st)))).

(** The session select's change listener. *)
Definition sessionChanged (sid : string) (st : View) : View :=
  let st1 := selectSessionOption sid st in
  if nonEmpty sid && negb (bool_decide (currentSessionId st1 = Some sid))
  then loadSession sid st1
  else st1.

(** The click on "New session"; the session list is fetched a second later. *)
Definition newSessionClicked (st : View) : View :=
  hideOtherSessionBanner
    (addSystemMessage "New session started"
       (sendCommand "/new" (chatAgent st) st)).

(** The click on "Jump to it", up to the fetch it starts. *)
Definition jumpClicked (st : View) : View :=
  match activeServerSession st with
  | Some a =>
      if nonEmpty a then loadSessionList (hideOtherSessionBanner st) else st
  | None => st
  end.


(** The view as [init] leaves it before any fetch has resolved, for the
    agent list [agents] known at that time and no replayed events. *)
Definition initialView (agents : list string) : View :=
  let chatAgent0 := orLit (head agents) "default" in
  let options := match agents with [] => ["default"] | _ => agents end in
  {| ws := Some CONNECTING; wsConnected := false; backoff := 500;
     toasts := []; sent := [];
     requests := [ListAgents; ListSessions chatAgent0];
     globalAgent := ""; chatAgent := chatAgent0; agentOptions := options;
     agentSelected := chatAgent0; sessionOptions := [];
     sessionSelected := None; currentSessionId := None;
     activeServerSession := None;
     msgsEl := [NSystem ("Connected to agent: " +:+ chatAgent0)];
     typingVisible := false; typingLabel := "Thinking…";
     bannerVisible := false;
     bannerLabel := "Agent is working in another session";
     otherSessionTimer := None; seenMessages := ∅; pendingDedup := ∅;
     streamingDiv := false; streamingText := ""; activityBlock := None;
     activityStartTimes := ∅; inputValue := "" |}.

(** *** Relative times, the router's hash and the event buffer *)

(** [relativeTime(date)]: [dateMs] is [date.getTime()], [localeDate] what
    [date.toLocaleDateString()] returns, [now] what [Date.now()] returns. *)
Definition relativeTime (now dateMs : Z) (localeDate : string) : string :=
  let diff := Z.max 0 (now - dateMs) in
  let secs := diff / 1000 in
  if secs <? 60 then "just now"
  else
    let mins := secs / 60 in
    if mins <? 60 then numberToString mins +:+ "m ago"
    else
      let hrs := mins / 60 in
      if hrs <? 24 then numberToString hrs +:+ "h ago"
      else
        let days := hrs / 24 in
        if days <? 7 then numberToString days +:+ "d ago"
        else localeDate.

(** [s.split(sep)] for a one-character separator. *)
Fixpoint split (sep : ascii) (s : string) : list string :=
  match s with
  | EmptyString => [EmptyString]
  | String c rest =>
      if Ascii.eqb c sep then EmptyString :: split sep rest
      else
        match split sep rest with
        | first :: others => String c first :: others
        | [] => [String c EmptyString]
        end
  end.

(** [hash.replace(/^#\/?/, "")]. *)
Definition stripHash (hash : string) : string :=
  match hash with
  | String c rest =>
      if Ascii.eqb c "#" then
        match rest with
        | String d rest' => if Ascii.eqb d "/" then rest' else rest
        | EmptyString => rest
        end
      else hash
  | EmptyString => hash
  end.

(** [parseHash] of [app.js], on the value of [location.hash]: the route's
    name and its parameters. *)
Definition parseHash (locationHash : string) : string * list string :=
  let hash := if nonEmpty locationHash then locationHash else "#/chat" in
  let path := stripHash hash in
  let parts := split "/" path in
  (orLit (head parts) "chat", tail parts).

(** [MAX_EVENTS] of [app.js]. *)
Definition MAX_EVENTS : nat := 200.

(** The event buffer of [ws.onmessage] in [app.js]: the event is pushed and
    the buffer cut back to its last [MAX_EVENTS] entries. *)
Definition storeEvent (data : Event) (events : list Event) : list Event :=
  let events := (events ++ [data])%list in
  if (MAX_EVENTS <? length events)%nat then lastN MAX_EVENTS events
  else events.

End Legacy.

(** * Specification-side notions *)

(** The condition under which the merge keeps a live message: neither of
    its keys is the corresponding key of a persisted message. *)
Definition freshFor (P : list Web.LiveMessage) (m : Web.LiveMessage) : Prop :=
  (Web.liveKey m ∉ Web.liveKey <$> P)
  ∧ (Web.liveBaseKey m ∉ Web.liveBaseKey <$> P).

#[global] Instance freshFor_dec P m : Decision (freshFor P m).
Proof. unfold freshFor. apply _. Defined.

(** The revealed prefix is a prefix of the accumulated text. *)
Definition revealBounded (st : Web.ChatState) : Prop :=
  (Web.revealedLen st ≤ String.length (Web.streamBufferRef st))%nat.

(** What one input can do to the revealed length: it grows within the
    text, or the turn ends and both buffers are emptied. *)
Definition revealStep (st st' : Web.ChatState) : Prop :=
  ((Web.revealedLen st ≤ Web.revealedLen st')%nat
   ∧ (Web.revealedLen st' ≤ String.length (Web.streamBufferRef st'))%nat)
  ∨ (Web.revealedLen st' = 0%nat ∧ Web.streamBufferRef st' = "").

(** A [stream_delta] event for [agent] that carries no session tag. *)
Definition streamDeltaEvent (agent : string) (delta : option string)
    (done : option bool) : Web.GatewayEvent :=
  {| Web.ev_type := Some "stream_delta"; Web.ev_agents := None;
     Web.ev_agent := Some agent; Web.ev_agent_id := None;
     Web.ev_session := None; Web.ev_session_id := None; Web.ev_role := None;
     Web.ev_content := JUndefined; Web.ev_message := JUndefined;
     Web.ev_response := JUndefined; Web.ev_error := JUndefined;
     Web.ev_delta := delta; Web.ev_done := done; Web.ev_tool := None;
     Web.ev_timestamp := None; Web.ev_tokens := None;
     Web.ev_duration_ms := None; Web.ev_model_calls := None;
     Web.ev_tool_calls := None |}.



(** [st0] with the accumulator in the given condition. *)
Definition accum (buf : string) (r : nat) (shown : string) (streaming : bool)
    (pending : option string) (raf : bool) (st0 : Web.ChatState)
    : Web.ChatState :=
  Web.set_revealRaf raf
    (Web.set_pendingFinalize pending
       (Web.set_isStreaming streaming
          (Web.set_displayedStream shown
             (Web.set_revealedLen r
                (Web.set_streamBuffer buf (Web.set_streamBufferRef buf st0)))))).

(** [st0] after the turn whose text is [content] was finalised at [now]. *)
Definition finalised (content : string) (now : Z) (st0 : Web.ChatState)
    : Web.ChatState :=
  accum "" 0 "" false None false
    (Web.set_typing false
       (Web.set_liveMessages
          (Web.liveMessages st0 ++ [Web.mkLive "assistant" content now])
          (Web.set_seenKeys
             ({[ Web.messageBaseKey (Some "assistant") (JString content) ]}
              ∪ ({[ Web.messageKey (Some "assistant") (JString content) (Some now) ]}
                 ∪ Web.seenKeys st0))
             st0))).

(** An event of the React route with nothing but its kind, agent and
    session tag. *)
Definition webEvent (type agent : string) (session : option string)
    : Web.GatewayEvent :=
  {| Web.ev_type := Some type; Web.ev_agents := None;
     Web.ev_agent := Some agent; Web.ev_agent_id := None;
     Web.ev_session := session; Web.ev_session_id := None;
     Web.ev_role := None; Web.ev_content := JUndefined;
     Web.ev_message := JUndefined; Web.ev_response := JUndefined;
     Web.ev_error := JUndefined; Web.ev_delta := None; Web.ev_done := None;
     Web.ev_tool := None; Web.ev_timestamp := None; Web.ev_tokens := None;
     Web.ev_duration_ms := None; Web.ev_model_calls := None;
     Web.ev_tool_calls := None |}.

(** A [session_message] event of the React route. *)
Definition webSessionMessage (agent : string) (session : option string)
    (role content : string) (timestamp : option Z) : Web.GatewayEvent :=
  {| Web.ev_type := Some "session_message"; Web.ev_agents := None;
     Web.ev_agent := Some agent; Web.ev_agent_id := None;
     Web.ev_session := session; Web.ev_session_id := None;
     Web.ev_role := Some role; Web.ev_content := JString content;
     Web.ev_message := JUndefined; Web.ev_response := JUndefined;
     Web.ev_error := JUndefined; Web.ev_delta := None; Web.ev_done := None;
     Web.ev_tool := None; Web.ev_timestamp := timestamp;
     Web.ev_tokens := None; Web.ev_duration_ms := None;
     Web.ev_model_calls := None; Web.ev_tool_calls := None |}.

(** A receipt of the legacy view with no field set. *)
Definition noReceipt : Legacy.Receipt :=
  Legacy.mkReceipt None None None None None.

(** An event of the legacy view with its kind, agent, session tag, message
    fields and delta. *)
Definition legacyEvent (type agent : string) (session : option string)
    (msg : Legacy.MsgData) (delta : option string) (done : option bool)
    : Legacy.Event :=
  {| Legacy.ev_type := Some type; Legacy.ev_agents := None;
     Legacy.ev_agent := Some agent; Legacy.ev_agent_id := None;
     Legacy.ev_session := session; Legacy.ev_session_id := None;
     Legacy.ev_msg := msg; Legacy.ev_error := None;
     Legacy.ev_delta := delta; Legacy.ev_done := done;
     Legacy.ev_tool := None; Legacy.ev_receipt := noReceipt |}.

(** Message fields all absent. *)
Definition noMsg : Legacy.MsgData :=
  Legacy.mkMsg None None None None Legacy.TsMissing.

(** The message fields of a user message [text] stamped [ts]. *)
Definition userMsg (text : string) (ts : Legacy.TsValue) : Legacy.MsgData :=
  Legacy.mkMsg (Some "user") (Some text) None None ts.

(** The per-session live state of the React route at its initial values. *)
Definition liveStateCleared (st : Web.ChatState) : Prop :=
  Web.liveMessages st = [] ∧ Web.receipts st = []
  ∧ Web.activityItems st = []
  ∧ Web.streamBufferRef st = "" ∧ Web.streamBuffer st = ""
  ∧ Web.displayedStream st = "" ∧ Web.revealedLen st = 0%nat
  ∧ Web.isStreaming st = false ∧ Web.pendingFinalize st = None
  ∧ Web.seenKeys st = ∅
  ∧ Web.typing st = false ∧ Web.typingLabel st = Web.thinkingLabel
  ∧ Web.otherSession st = None.

(** What an event may not touch when it belongs to another session: the
    transcript, the receipts and activity, the stream, the typing indicator
    and the dedup table of the viewed one. *)
Definition viewedUntouched (st st' : Web.ChatState) : Prop :=
  Web.liveMessages st' = Web.liveMessages st
  ∧ Web.receipts st' = Web.receipts st
  ∧ Web.activityItems st' = Web.activityItems st
  ∧ Web.streamBufferRef st' = Web.streamBufferRef st
  ∧ Web.streamBuffer st' = Web.streamBuffer st
  ∧ Web.displayedStream st' = Web.displayedStream st
  ∧ Web.revealedLen st' = Web.revealedLen st
  ∧ Web.revealRaf st' = Web.revealRaf st
  ∧ Web.isStreaming st' = Web.isStreaming st
  ∧ Web.pendingFinalize st' = Web.pendingFinalize st
  ∧ Web.seenKeys st' = Web.seenKeys st
  ∧ Web.typing st' = Web.typing st
  ∧ Web.typingLabel st' = Web.typingLabel st
  ∧ Web.selectedAgent st' = Web.selectedAgent st
  ∧ Web.selectedSession st' = Web.selectedSession st.







(** * Transcript merger *)

Section Merge.
Import Web.

Lemma filter_bool_prop {A} (f : A -> bool) (Q : A -> Prop)
    `{!∀ x, Decision (Q x)} (l : list A) :
  (∀ x, f x = bool_decide (Q x)) → List.filter f l = filter Q l.
Proof.
  intros Hf. induction l as [|x l IH]; [done|].
  cbn [List.filter]. rewrite Hf, IH.
  rewrite filter_cons. destruct (decide (Q x)) as [HQ|HQ].
  - by rewrite bool_decide_eq_true_2.
  - by rewrite bool_decide_eq_false_2.
Qed.

Lemma notPersisted_fresh (P : list LiveMessage) (m : LiveMessage) :
  notPersisted (list_to_set (liveKey <$> P)) (list_to_set (liveBaseKey <$> P)) m
  = bool_decide (freshFor P m).
Proof.
  unfold freshFor, notPersisted.
  destruct (decide (liveKey m ∈ liveKey <$> P)) as [Hk|Hk].
  { rewrite bool_decide_eq_true_2 by (by apply elem_of_list_to_set).
    symmetry. apply bool_decide_eq_false_2. tauto. }
  rewrite bool_decide_eq_false_2 by (by rewrite elem_of_list_to_set).
  destruct (decide (liveBaseKey m ∈ liveBaseKey <$> P)) as [Hb|Hb].
  { rewrite bool_decide_eq_true_2 by (by apply elem_of_list_to_set).
    symmetry. apply bool_decide_eq_false_2. tauto. }
  rewrite bool_decide_eq_false_2 by (by rewrite elem_of_list_to_set).
  symmetry. by apply bool_decide_eq_true_2.
Qed.

(** The merge, with the sets of keys read as lists. *)
Lemma mergeMessages_unfold (P L : list LiveMessage) :
  mergeMessages P L =
    match P, L with
    | [], _ => L
    | _, [] => P
    | _, _ => (P ++ filter (freshFor P) L)%list
    end.
Proof.
  destruct P as [|p P]; [done|]. destruct L as [|l L]; [done|].
  unfold mergeMessages. f_equal.
  apply filter_bool_prop. intros m. apply notPersisted_fresh.
Qed.

Lemma persisted_roles clock raw :
  Forall (λ m, role m ≠ "") (persistedMessages clock raw).
Proof.
  unfold persistedMessages. apply Forall_forall. intros m Hm.
  apply elem_of_lookup_imap in Hm as (i & x & -> & Hx).
  apply list_elem_of_lookup_2, list_elem_of_In, filter_In in Hx as [_ Hk].
  unfold keepPersisted in Hk. apply andb_prop in Hk as [Hr _].
  destruct (sm_role x) as [r|] eqn:Er; [|done].
  unfold normalizeMessage. cbn. rewrite Er. cbn.
  intros ->. done.
Qed.

(** A message that the merge dropped, or kept, has a key among the keys of
    the merged list. *)
Lemma not_fresh_after_merge (P L : list LiveMessage) (m : LiveMessage) :
  m ∈ L → ¬ freshFor (P ++ filter (freshFor P) L)%list m.
Proof.
  intros Hm [Hk Hb].
  destruct (decide (freshFor P m)) as [Hf|Hf].
  - apply Hk. apply list_elem_of_fmap. exists m. split; [done|].
    apply elem_of_app. right. by apply list_elem_of_filter.
  - apply Hf. split.
    + intros Hin. apply Hk. rewrite fmap_app. apply elem_of_app. by left.
    + intros Hin. apply Hb. rewrite fmap_app. apply elem_of_app. by left.
Qed.

Lemma filter_none {A} (Q : A -> Prop) `{!∀ x, Decision (Q x)} (l : list A) :
  (∀ x, x ∈ l → ¬ Q x) → filter Q l = [].
Proof.
  induction l as [|x l IH]; intros Hall; [done|].
  rewrite filter_cons. destruct (decide (Q x)) as [HQ|HQ].
  - exfalso. apply (Hall x); [left|done].
  - apply IH. intros y Hy. apply Hall. by right.
Qed.

Lemma filter_sublist_mono {A} (Q1 Q2 : A -> Prop)
    `{!∀ x, Decision (Q1 x)} `{!∀ x, Decision (Q2 x)} (l : list A) :
  (∀ x, Q1 x → Q2 x) → filter Q1 l `sublist_of` filter Q2 l.
Proof.
  intros Himp. induction l as [|x l IH]; [constructor|].
  rewrite !filter_cons.
  destruct (decide (Q1 x)) as [H1|H1]; destruct (decide (Q2 x)) as [H2|H2].
  - by apply sublist_skip.
  - exfalso. by apply H2, Himp.
  - by apply sublist_cons.
  - done.
Qed.

Lemma freshFor_weaken (P Q : list LiveMessage) (m : LiveMessage) :
  freshFor (P ++ Q) m → freshFor P m.
Proof.
  intros [Hk Hb]. split; intros Hin.
  - apply Hk. rewrite fmap_app. apply elem_of_app. by left.
  - apply Hb. rewrite fmap_app. apply elem_of_app. by left.
Qed.

(** Loading more of the persisted list can only remove live messages from
    the tail of the transcript; those that stay keep their order. *)
Lemma merge_grows_stably (P Q L : list LiveMessage) :
  ∃ D D', mergeMessages P L = (P ++ D)%list
          ∧ mergeMessages (P ++ Q) L = ((P ++ Q) ++ D')%list
          ∧ D' `sublist_of` D ∧ D `sublist_of` L.
Proof.
  rewrite !mergeMessages_unfold.
  destruct L as [|l L].
  { exists [], []. repeat split; try constructor.
    - destruct P; by rewrite ?app_nil_r.
    - destruct (P ++ Q)%list; by rewrite ?app_nil_r. }
  destruct P as [|p P].
  - destruct Q as [|q Q].
    + exists (l :: L), (l :: L). by repeat split.
    + exists (l :: L), (filter (freshFor (q :: Q)) (l :: L)).
      repeat split; [apply sublist_filter|done].
  - exists (filter (freshFor (p :: P)) (l :: L)),
           (filter (freshFor ((p :: P) ++ Q)) (l :: L)).
    repeat split; [|apply sublist_filter].
    apply filter_sublist_mono. intros m. apply freshFor_weaken.
Qed.

Lemma not_fresh_self (L : list LiveMessage) (m : LiveMessage) :
  m ∈ L → ¬ freshFor L m.
Proof.
  intros Hm [Hk _]. apply Hk. apply list_elem_of_fmap. by exists m.
Qed.

End Merge.

(** C1. The effective transcript is the live list when nothing is persisted,
    the persisted list when nothing is live, and otherwise the persisted
    list followed, in live order, by exactly the live messages whose exact
    key is not the exact key of a persisted message and whose base key is
    not the base key of one. The persisted list is the REST answer without
    the entries that lack a role or a content, normalised; each of its
    messages has a role. The base key is the role, a bar and the first 200
    characters of the content; the exact key adds a bar and the timestamp
    unless the timestamp is zero. *)
Theorem allMessages_merge_spec (clock : nat -> Z)
    (raw : list Web.SessionMessage) (L : list Web.LiveMessage) :
  let P := Web.persistedMessages clock raw in
  Web.allMessages clock raw L =
    match P, L with
    | [], _ => L
    | _, [] => P
    | _, _ => (P ++ filter (freshFor P) L)%list
    end
  ∧ P = imap (λ i m, Web.normalizeMessage (clock i) m)
          (List.filter Web.keepPersisted raw)
  ∧ Forall (λ m, Web.role m ≠ "") P
  ∧ ∀ m : Web.LiveMessage,
      Web.liveBaseKey m = Web.role m +:+ "|" +:+ slice0 200 (Web.content m)
      ∧ Web.liveKey m
        = (if Web.timestamp m =? 0 then Web.liveBaseKey m
           else Web.liveBaseKey m +:+ "|" +:+ numberToString (Web.timestamp m)).
Proof.
  intros P. split; [|split; [|split]].
  - unfold Web.allMessages. apply mergeMessages_unfold.
  - reflexivity.
  - apply persisted_roles.
  - intros m. split; reflexivity.
Qed.

(** C3. Merging the live list into the result of a merge changes nothing:
    the merge is idempotent in its live argument, so running it again never
    adds an entry a second time. And when more of the persisted list has
    loaded, the merge still ends in live messages only, a sublist of those
    it ended in before, in the same order. *)
Theorem mergeMessages_idempotent (P L : list Web.LiveMessage) :
  Web.mergeMessages (Web.mergeMessages P L) L = Web.mergeMessages P L
  ∧ ∀ Q, ∃ D D',
      Web.mergeMessages P L = (P ++ D)%list
      ∧ Web.mergeMessages (P ++ Q) L = ((P ++ Q) ++ D')%list
      ∧ D' `sublist_of` D ∧ D `sublist_of` L.
Proof.
  split; [|intros Q; apply merge_grows_stably].
  rewrite (mergeMessages_unfold P L).
  destruct P as [|p P].
  - rewrite mergeMessages_unfold. destruct L as [|l L]; [done|].
    rewrite filter_none; [by rewrite app_nil_r|].
    intros x Hx. by apply not_fresh_self.
  - destruct L as [|l L].
    + by rewrite mergeMessages_unfold.
    + rewrite mergeMessages_unfold.
      set (D := filter (freshFor (p :: P)) (l :: L)).
      rewrite (filter_none (freshFor ((p :: P) ++ D)) (l :: L)).
      * by rewrite app_nil_r.
      * intros x Hx. by apply (not_fresh_after_merge (p :: P) (l :: L)).
Qed.

(** * Stream accumulator *)

Section Reveal.
Import Web.

Lemma length_app_string (a b : string) :
  String.length (a +:+ b) = (String.length a + String.length b)%nat.
Proof. induction a as [|c a IH]; simpl; [done|]. by rewrite IH. Qed.

(** The render after a handler touches nothing but the frame request. *)
Lemma commitStream_only_raf before st :
  commitStream before st = set_revealRaf (revealRaf (commitStream before st)) st.
Proof.
  unfold commitStream, revealEffect.
  repeat case_match; by destruct st.
Qed.

Lemma commitStream_revealedLen before st :
  revealedLen (commitStream before st) = revealedLen st.
Proof. by rewrite commitStream_only_raf. Qed.

Lemma commitStream_streamBufferRef before st :
  streamBufferRef (commitStream before st) = streamBufferRef st.
Proof. by rewrite commitStream_only_raf. Qed.

Lemma commitStream_bounded before st :
  revealBounded (commitStream before st) ↔ revealBounded st.
Proof.
  unfold revealBounded.
  by rewrite commitStream_revealedLen, commitStream_streamBufferRef.
Qed.

Lemma runFinalize_clears now content st :
  revealedLen (runFinalize now content st) = 0%nat
  ∧ streamBufferRef (runFinalize now content st) = ""
  ∧ streamBuffer (runFinalize now content st) = ""
  ∧ displayedStream (runFinalize now content st) = "".
Proof. unfold runFinalize. by case_match. Qed.

Lemma resetLive_clears st :
  revealedLen (resetLive st) = 0%nat ∧ streamBufferRef (resetLive st) = "".
Proof. done. Qed.

Lemma revealStep_same st st' :
  revealBounded st → revealedLen st' = revealedLen st →
  streamBufferRef st' = streamBufferRef st → revealStep st st'.
Proof. intros Hb Hr Hs. left. unfold revealBounded in Hb. rewrite Hr, Hs. lia. Qed.

Lemma tick_revealStep now st :
  revealBounded st → revealStep st (tick now st).
Proof.
  intros Hb. unfold tick.
  destruct (revealRaf st); cbn [negb]; [|by apply revealStep_same].
  unfold revealStep.
  rewrite commitStream_revealedLen, commitStream_streamBufferRef.
  destruct (revealedLen st <? String.length (streamBufferRef st))%nat eqn:Hlt.
  { apply Nat.ltb_lt in Hlt. left. cbn. unfold CHARS_PER_FRAME. lia. }
  destruct (negb (isStreaming st) && (0 <? String.length (streamBufferRef st))%nat).
  { cbn. destruct (pendingFinalize st) as [content|].
    - right. cbn. pose proof (runFinalize_clears now content (set_revealRaf false st)).
      tauto.
    - left. cbn. unfold revealBounded in Hb. lia. }
  left. unfold revealBounded in Hb. destruct (isStreaming st); cbn; lia.
Qed.

Lemma onStreamDelta_revealStep now payload st :
  revealBounded st → revealStep st (onStreamDelta now payload st).
Proof.
  intros Hb. unfold revealBounded in Hb. unfold onStreamDelta.
  set (st1 := match ev_delta payload with Some _ => _ | None => _ end).
  assert (revealedLen st1 = revealedLen st
          ∧ (String.length (streamBufferRef st) ≤ String.length (streamBufferRef st1))%nat)
    as [Hr Hl].
  { subst st1. destruct (ev_delta payload) as [d|]; [|done].
    destruct (nonEmpty d); [|done]. cbn. rewrite length_app_string. lia. }
  destruct (default false (ev_done payload)).
  - destruct (nonEmpty (streamBufferRef _)).
    + left. cbn. lia.
    + right. cbn. pose proof (runFinalize_clears now (trim (streamBufferRef st1))
        (set_pendingFinalize (Some (trim (streamBufferRef st1)))
           (set_isStreaming false st1))). tauto.
  - left. lia.
Qed.

Lemma handleViewed_revealStep now type payload st :
  revealBounded st → revealStep st (handleViewed now type payload st).
Proof.
  intros Hb. unfold handleViewed.
  repeat (case_match; [by apply revealStep_same|]).
  case_match; [by apply onStreamDelta_revealStep|].
  case_match.
  { apply revealStep_same; [done| |]; unfold onSessionMessage; by case_match. }
  repeat (case_match; [by apply revealStep_same|]).
  by apply revealStep_same.
Qed.

Lemma handleEvent_revealStep now payload st :
  revealBounded st → revealStep st (handleEvent now payload st).
Proof.
  intros Hb. unfold handleEvent.
  destruct (ev_type payload) as [type|]; [|by apply revealStep_same].
  repeat (case_match; try (by apply revealStep_same);
          try (by apply handleViewed_revealStep)).
Qed.

Lemma revealStep_commit st before st' :
  revealStep st st' → revealStep st (commitStream before st').
Proof.
  unfold revealStep.
  by rewrite commitStream_revealedLen, commitStream_streamBufferRef.
Qed.

Lemma setSelectedSession_revealStep v st :
  revealBounded st → revealStep st (setSelectedSession v st).
Proof.
  intros Hb. unfold setSelectedSession. case_match; [by apply revealStep_same|].
  apply revealStep_commit. by right.
Qed.

Lemma setSelectedAgent_revealStep v st :
  revealBounded st → revealStep st (setSelectedAgent v st).
Proof.
  intros Hb. unfold setSelectedAgent. case_match; [by apply revealStep_same|].
  apply revealStep_commit. by right.
Qed.

Lemma step_revealStep i st :
  revealBounded st → revealStep st (step i st).
Proof.
  intros Hb. destruct i; cbn [step].
  - destruct data as [payload|]; cbn [onframe]; [|by apply revealStep_same].
    apply revealStep_commit. by apply handleEvent_revealStep.
  - by apply tick_revealStep.
  - unfold sendMessage. case_match; by apply revealStep_same.
  - unfold startNewSession. case_match; by apply revealStep_same.
  - by apply revealStep_same.
  - unfold pickAgent.
    apply (setSelectedAgent_revealStep v (set_userPickedSession false st) Hb).
  - unfold pickSession.
    apply (setSelectedSession_revealStep v (set_userPickedSession true st) Hb).
  - unfold autoSelectSession.
    repeat (case_match; try (by apply revealStep_same);
            try (by apply setSelectedSession_revealStep)).
  - unfold jumpToOtherSession.
    destruct (otherSession st) as [[id d]|]; [|by apply revealStep_same].
    pose proof (setSelectedSession_revealStep id
                  (set_userPickedSession true st) Hb) as Hs.
    unfold revealStep in *. cbn in *. exact Hs.
  - unfold bannerTimeout. case_match; by apply revealStep_same.
  - by apply revealStep_same.
  - by apply revealStep_same.
  - by apply revealStep_same.
  - by apply revealStep_same.
Qed.

Lemma revealStep_bounded st st' :
  revealStep st st' → revealBounded st'.
Proof.
  unfold revealStep, revealBounded. intros [[_ Hb]|[-> ->]]; [done|cbn; lia].
Qed.

Lemma run_snoc inputs i st : run (inputs ++ [i]) st = step i (run inputs st).
Proof. unfold run. by rewrite fold_left_app. Qed.


Lemma reachable_bounded st : reachable st → revealBounded st.
Proof.
  intros [inputs ->]. induction inputs as [|i inputs IH] using rev_ind.
  - cbn. unfold revealBounded. cbn. lia.
  - rewrite run_snoc. eapply revealStep_bounded, step_revealStep, IH.
Qed.

End Reveal.

(** C7. In every state the route can reach, the revealed length is at most
    the length of the accumulated text; a reveal tick never lowers it and
    never takes it past that length, except for the tick that finalises the
    turn, which empties both buffers; and any other input likewise leaves it
    in place or empties both. *)
Theorem reveal_monotone (st : Web.ChatState) (now : Z) :
  Web.reachable st →
  (Web.revealedLen st ≤ String.length (Web.streamBufferRef st))%nat
  ∧ (((Web.revealedLen st ≤ Web.revealedLen (Web.tick now st))%nat
      ∧ (Web.revealedLen (Web.tick now st)
         ≤ String.length (Web.streamBufferRef (Web.tick now st)))%nat)
     ∨ (Web.revealedLen (Web.tick now st) = 0%nat
        ∧ Web.streamBufferRef (Web.tick now st) = ""
        ∧ Web.isStreaming st = false
        ∧ Web.revealedLen st = String.length (Web.streamBufferRef st)))
  ∧ ∀ i, revealStep st (Web.step i st).
Proof.
  intros Hr. pose proof (reachable_bounded st Hr) as Hb.
  split; [exact Hb|]. split; [|intros i; by apply step_revealStep].
  unfold Web.tick.
  destruct (Web.revealRaf st); cbn [negb]; [|left; unfold revealBounded in Hb; lia].
  rewrite commitStream_revealedLen, commitStream_streamBufferRef.
  destruct (Web.revealedLen st <? String.length (Web.streamBufferRef st))%nat eqn:Hlt.
  { apply Nat.ltb_lt in Hlt. left. cbn. unfold Web.CHARS_PER_FRAME. lia. }
  apply Nat.ltb_ge in Hlt.
  destruct (Web.isStreaming st) eqn:Hs; cbn [negb andb].
  { left. cbn. unfold revealBounded in Hb. lia. }
  destruct (0 <? String.length (Web.streamBufferRef st))%nat.
  - cbn. destruct (Web.pendingFinalize st) as [content|].
    + right. cbn.
      pose proof (runFinalize_clears now content (Web.set_revealRaf false st)).
      unfold revealBounded in Hb. repeat split; try tauto. lia.
    + left. cbn. unfold revealBounded in Hb. lia.
  - left. cbn. unfold revealBounded in Hb. lia.
Qed.

(** * Finalisation after the reveal has caught up *)

(** Evaluation of field reads and writes on the route's state, and nothing
    else. *)
Ltac chat_fields :=
  cbv [Web.selectedAgent Web.selectedSession Web.draft Web.typing
       Web.typingLabel Web.liveMessages Web.activityItems Web.receipts
       Web.streamBuffer Web.displayedStream Web.otherSession Web.wsConnected
       Web.uiWsConnected Web.seenKeys Web.streamBufferRef Web.revealedLen
       Web.revealRaf Web.isStreaming Web.pendingFinalize
       Web.otherSessionTimer Web.wsRef Web.wsReconnectAttempts
       Web.wsReconnectTimer Web.userPickedSession Web.sent Web.queryEffects
       Web.set_selectedAgent Web.set_selectedSession Web.set_draft
       Web.set_typing Web.set_typingLabel Web.set_liveMessages
       Web.set_activityItems Web.set_receipts Web.set_streamBuffer
       Web.set_displayedStream Web.set_otherSession Web.set_wsConnected
       Web.set_uiWsConnected Web.set_seenKeys Web.set_streamBufferRef
       Web.set_revealedLen Web.set_revealRaf Web.set_isStreaming
       Web.set_pendingFinalize Web.set_otherSessionTimer Web.set_wsRef
       Web.set_wsReconnectAttempts Web.set_wsReconnectTimer
       Web.set_userPickedSession Web.set_sent Web.set_queryEffects accum finalised].

Section Finalize.
Import Web.






Lemma nonEmpty_true s : nonEmpty s = true ↔ s ≠ "".
Proof.
  unfold nonEmpty. rewrite negb_true_iff. split.
  - intros H ->. by rewrite String.eqb_refl in H.
  - intros H. by apply String.eqb_neq.
Qed.









Lemma finalised_unscheduled content now st0 :
  revealRaf (finalised content now st0) = false.
Proof. done. Qed.

End Finalize.


(** * Session router *)

Section Router.
Import Web.



Lemma viewedUntouched_refl st : viewedUntouched st st.
Proof. by repeat split. Qed.


End Router.

Section LegacyRouter.
Import Legacy.

Lemma legacy_nonEmpty_true s : nonEmpty s = true ↔ s ≠ "".
Proof.
  unfold nonEmpty. rewrite negb_true_iff. split.
  - intros H ->. by rewrite String.eqb_refl in H.
  - intros H. by apply String.eqb_neq.
Qed.



End LegacyRouter.




(** * Optimistic echo *)

Section Echo.

(** In the React route the key of a sent message stays in the seen set, so
    its echo is dropped whenever it arrives. *)
Lemma web_echo_dropped (st : Web.ChatState) (t0 now : Z) (text : string)
    (ts : option Z) :
  Web.socketOpen st = true → trim (Web.draft st) = text → text ≠ "" →
  let st1 := Web.sendMessage t0 st in
  Web.liveMessages st1 = (Web.liveMessages st ++ [Web.mkLive "user" text t0])%list
  ∧ Web.sent st1 = (Web.sent st ++ [mkCommand text (Web.selectedAgent st)])%list
  ∧ Web.handleEvent now
      (webSessionMessage (Web.selectedAgent st) None "user" text ts) st1
    = st1.
Proof.
  intros Hopen Htrim Hne st1.
  assert (st1 =
    Web.set_draft ""
      (Web.set_typingLabel Web.thinkingLabel
         (Web.set_typing true
            (Web.set_liveMessages
               (Web.liveMessages st ++ [Web.mkLive "user" text t0])
               (Web.set_seenKeys
                  ({[ Web.messageBaseKey (Some "user") (JString text) ]}
                   ∪ ({[ Web.messageKey (Some "user") (JString text) None ]}
                      ∪ Web.seenKeys st))
                  (Web.set_sent
                     (Web.sent st ++ [mkCommand text (Web.selectedAgent st)])
                     st)))))) as Hst1.
  { subst st1. unfold Web.sendMessage. rewrite Htrim, Hopen.
    apply nonEmpty_true in Hne as ->. reflexivity. }
  split; [by rewrite Hst1|]. split; [by rewrite Hst1|].
  unfold Web.handleEvent.
  cbn [Web.ev_type webSessionMessage Web.eventAgent Web.ev_agent
       Web.eventSession Web.ev_session Web.ev_session_id Web.ev_agents].
  change (Web.nonEmpty "session_message") with true.
  change (String.eqb "session_message" "agent_list") with false.
  cbn [negb andb].
  replace (Web.selectedAgent st1) with (Web.selectedAgent st)
    by (by rewrite Hst1).
  rewrite String.eqb_refl. cbn [negb].
  unfold Web.handleViewed.
  change (String.eqb "session_message" "session_created") with false.
  change (String.eqb "session_message" "typing_start") with false.
  change (String.eqb "session_message" "typing_stop") with false.
  change (String.eqb "session_message" "tool_start") with false.
  change (String.eqb "session_message" "tool_end") with false.
  change (String.eqb "session_message" "tool_error") with false.
  change (String.eqb "session_message" "stream_delta") with false.
  change (String.eqb "session_message" "session_message") with true.
  cbv iota. unfold Web.onSessionMessage.
  cbn [Web.ev_role Web.ev_content Web.ev_message Web.ev_response
       Web.ev_timestamp default js_nullish Web.toText].
  assert (Web.messageBaseKey (Some "user") (JString text) ∈ Web.seenKeys st1)
    as Hin.
  { rewrite Hst1. destruct st. chat_fields. set_solver. }
  rewrite (bool_decide_eq_true_2 _ Hin). by rewrite orb_true_r.
Qed.

Lemma legacy_isType_session_message agent session msg :
  let data := legacyEvent "session_message" agent session msg None None in
  Legacy.isType data "agent_list" = false
  ∧ Legacy.isType data "list_agents" = false
  ∧ Legacy.isType data "typing_start" = false
  ∧ Legacy.isType data "typing_stop" = false
  ∧ Legacy.isType data "tool_start" = false
  ∧ Legacy.isType data "tool_end" = false
  ∧ Legacy.isType data "stream_delta" = false
  ∧ Legacy.isType data "session_message" = true.
Proof. by repeat split. Qed.

(** In the legacy view the entry for a sent message expires: its echo is
    dropped for 30 s and rendered afterwards. *)
Lemma legacy_echo_window (st : Legacy.View) (t0 now : Z) (text : string)
    (ts : Legacy.TsValue) :
  trim (Legacy.inputValue st) = text → text ≠ "" → t0 ≠ 0 →
  Legacy.msgKey (Some "user") (Some text) ts ∉ Legacy.seenMessages st →
  let st1 := Legacy.sendMessage t0 st in
  let echo :=
    legacyEvent "session_message" (Legacy.chatAgent st) None
      (userMsg text ts) None None in
  Legacy.msgsEl st1 = (Legacy.msgsEl st ++ [Legacy.NUser text Legacy.TsMissing])%list
  ∧ (now - t0 < 30000 →
       Legacy.msgsEl (Legacy.onEvent now echo st1) = Legacy.msgsEl st1)
  ∧ (30000 ≤ now - t0 →
       Legacy.msgsEl (Legacy.onEvent now echo st1)
       = (Legacy.msgsEl st1 ++ [Legacy.NUser text ts])%list).
Proof.
  intros Htrim Hne Ht0 Hfresh st1 echo.
  assert (Legacy.orLit (Some text) "" = text) as Htext.
  { unfold Legacy.orLit, Legacy.orStr.
    apply String.eqb_neq in Hne as ->. done. }
  assert (∃ base,
    st1 = Legacy.setTyping true (Some "Thinking…")
            (Legacy.put_inputValue ""
               (Legacy.put_pendingDedup
                  (<[ Legacy.contentKey (Some "user") (Some text) := t0 ]>
                     (Legacy.pendingDedup base))
                  (Legacy.addUserMessage text Legacy.TsMissing base)))
    ∧ Legacy.msgsEl base = Legacy.msgsEl st
    ∧ Legacy.seenMessages base = Legacy.seenMessages st
    ∧ Legacy.chatAgent base = Legacy.chatAgent st
    ∧ Legacy.currentSessionId base = Legacy.currentSessionId st)
    as (base & Hst1 & Hm & Hs & Ha & Hc).
  { exists (Legacy.sendCommand text (Legacy.chatAgent st) st). split.
    - subst st1. unfold Legacy.sendMessage. rewrite Htrim.
      apply legacy_nonEmpty_true in Hne as ->. reflexivity.
    - unfold Legacy.sendCommand, Legacy.showToast. by case_match. }
  assert (Legacy.msgsEl st1
          = (Legacy.msgsEl st ++ [Legacy.NUser text Legacy.TsMissing])%list)
    as Hmsgs by (rewrite Hst1, <- Hm; reflexivity).
  split; [exact Hmsgs|].
  assert (Legacy.onEvent now echo st1 = Legacy.onSessionMessage now echo st1)
    as ->.
  { unfold Legacy.onEvent.
    change (Legacy.isType echo "agent_list") with false.
    change (Legacy.isType echo "list_agents") with false.
    cbn [orb].
    replace (Legacy.eventAgent echo) with (Legacy.chatAgent st).
    2:{ subst echo. unfold Legacy.eventAgent, legacyEvent.
        cbn [Legacy.ev_agent Legacy.ev_agent_id].
        unfold Legacy.orLit, Legacy.orStr.
        destruct (String.eqb (Legacy.chatAgent st) "") eqn:E.
        - by apply String.eqb_eq in E.
        - by rewrite E. }
    replace (Legacy.chatAgent st1) with (Legacy.chatAgent st)
      by (rewrite Hst1, <- Ha; reflexivity).
    rewrite String.eqb_refl. cbn [negb].
    change (Legacy.eventSession echo) with (@None string).
    unfold Legacy.onViewed.
    change (Legacy.isType echo "typing_start") with false.
    change (Legacy.isType echo "typing_stop") with false.
    change (Legacy.isType echo "tool_start") with false.
    change (Legacy.isType echo "tool_end") with false.
    change (Legacy.isType echo "stream_delta") with false.
    change (Legacy.isType echo "session_message") with true.
    reflexivity. }
  unfold Legacy.onSessionMessage.
  change (Legacy.ev_msg echo) with (userMsg text ts).
  assert (Legacy.msgContent (userMsg text ts) = Some text) as ->.
  { unfold Legacy.msgContent, userMsg, Legacy.orStr.
    cbn [Legacy.m_content Legacy.m_response Legacy.m_message].
    apply String.eqb_neq in Hne. rewrite Hne. by rewrite Hne. }
  change (Legacy.m_role (userMsg text ts)) with (Some "user").
  change (Legacy.m_timestamp (userMsg text ts)) with ts.
  change (Legacy.m_content (userMsg text ts)) with (Some text).
  rewrite Htext.
  replace (Legacy.seenMessages st1) with (Legacy.seenMessages st)
    by (rewrite Hst1, <- Hs; reflexivity).
  rewrite (bool_decide_eq_false_2 _ Hfresh).
  replace (Legacy.pendingDedup st1 !! Legacy.contentKey (Some "user") (Some text))
    with (Some t0).
  2:{ rewrite Hst1. symmetry. apply lookup_insert_eq. }
  apply Z.eqb_neq in Ht0 as ->.
  rewrite (bool_decide_eq_true_2 (Some "user" = Some "user")) by done.
  split.
  - intros Hlt. apply Z.ltb_lt in Hlt as ->. reflexivity.
  - intros Hge. apply Z.ltb_ge in Hge as ->. reflexivity.
Qed.

End Echo.

(** C5, evaluated on the React route. A sent "status?" is appended at once
    and handed to the socket; its echo is dropped ten seconds later, and is
    dropped just the same 35 seconds later, where the specification wants
    it appended as a new message. *)
Theorem optimistic_echo_react_evaluation :
  let t0 := 1700000000000 in
  let st1 :=
    Web.run [Web.SocketOpen; Web.Draft "status?"; Web.Send t0] Web.initialState in
  let echo (at_ : Z) :=
    webSessionMessage "default" None "user" "status?" (Some at_) in
  Web.liveMessages st1 = [Web.mkLive "user" "status?" t0]
  ∧ Web.sent st1 = [mkCommand "status?" "default"]
  ∧ Web.liveMessages (Web.onmessage (t0 + 10000) (echo (t0 + 10000)) st1)
    = [Web.mkLive "user" "status?" t0]
  ∧ Web.liveMessages (Web.onmessage (t0 + 35000) (echo (t0 + 35000)) st1)
    = [Web.mkLive "user" "status?" t0].
Proof. vm_compute. by repeat split. Qed.

(** The same scenario on the legacy view: dropped after 10 s, rendered
    after 35 s. *)
Lemma optimistic_echo_legacy_evaluation :
  let t0 := 1700000000000 in
  let st1 :=
    Legacy.sendMessage t0
      (Legacy.put_inputValue "status?"
         (Legacy.appOnOpen (Legacy.put_msgsEl [] (Legacy.initialView [])))) in
  let echo (at_ : Z) :=
    legacyEvent "session_message" "default" None
      (userMsg "status?" (Legacy.TsNumber at_)) None None in
  Legacy.msgsEl st1 = [Legacy.NUser "status?" Legacy.TsMissing]
  ∧ Legacy.sent st1 = [mkCommand "status?" "default"]
  ∧ Legacy.msgsEl (Legacy.onEvent (t0 + 10000) (echo (t0 + 10000)) st1)
    = [Legacy.NUser "status?" Legacy.TsMissing]
  ∧ Legacy.msgsEl (Legacy.onEvent (t0 + 35000) (echo (t0 + 35000)) st1)
    = [Legacy.NUser "status?" Legacy.TsMissing;
       Legacy.NUser "status?" (Legacy.TsNumber (t0 + 35000))].
Proof. vm_compute. by repeat split. Qed.

(** * Session switch *)

Section Switch.
Import Web.

Lemma resetLive_cleared st : liveStateCleared (resetLive st).
Proof. by repeat split. Qed.

Lemma commitStream_cleared before st :
  liveStateCleared st → liveStateCleared (commitStream before st).
Proof.
  unfold liveStateCleared. rewrite (commitStream_only_raf before st).
  by destruct st.
Qed.

(** In the React route a change of the viewed session resets the live
    state. *)
Lemma setSelectedSession_resets v st :
  v ≠ selectedSession st → liveStateCleared (setSelectedSession v st).
Proof.
  intros Hne. unfold setSelectedSession.
  apply String.eqb_neq in Hne as ->.
  apply commitStream_cleared, resetLive_cleared.
Qed.

(** In the React route a change of the selected agent resets the live
    state. *)
Lemma setSelectedAgent_resets v st :
  v ≠ selectedAgent st → liveStateCleared (setSelectedAgent v st).
Proof.
  intros Hne. unfold setSelectedAgent.
  apply String.eqb_neq in Hne as ->.
  apply commitStream_cleared, resetLive_cleared.
Qed.

Lemma setSelectedSession_selection v st :
  selectedSession (setSelectedSession v st) = v
  ∧ selectedAgent (setSelectedSession v st) = selectedAgent st.
Proof.
  unfold setSelectedSession. destruct (String.eqb_spec v (selectedSession st)).
  - done.
  - rewrite commitStream_only_raf. done.
Qed.

(** Both pickers, whatever else they did before. *)
Lemma pickers_reset v st :
  (v ≠ selectedSession st → liveStateCleared (pickSession v st))
  ∧ (v ≠ selectedAgent st → liveStateCleared (pickAgent v st)).
Proof.
  split; intros Hne.
  - by apply (setSelectedSession_resets v (set_userPickedSession true st)).
  - by apply (setSelectedAgent_resets v (set_userPickedSession false st)).
Qed.

End Switch.

(** C6, evaluated on the legacy view. With session "X" viewed, a typing
    indicator raised by an event of "X" is still shown after the user has
    switched to "Y"; and text streamed for "X" stays in the stream buffer
    across the switch, so that the next delta, streamed for "Y", is appended
    to it in an element that is no longer part of the message list. The
    message list and both dedup tables are reset. *)
Theorem legacy_session_switch_evaluation :
  let viewingX :=
    Legacy.sessionLoaded "X" [] []
      (Legacy.sessionListLoaded Legacy.ThenLoad ["X"; "Y"] (Some "X")
         (Legacy.initialView [])) in
  let typingX :=
    Legacy.onEvent 10
      (legacyEvent "typing_start" "default" (Some "X") noMsg None None)
      viewingX in
  let streamingX :=
    Legacy.onEvent 11
      (legacyEvent "stream_delta" "default" (Some "X") noMsg (Some "Hel") None)
      viewingX in
  let switched := Legacy.sessionChanged "Y" streamingX in
  let deltaY :=
    Legacy.onEvent 12
      (legacyEvent "stream_delta" "default" (Some "Y") noMsg (Some "lo") None)
      switched in
  Legacy.currentSessionId viewingX = Some "X"
  ∧ Legacy.typingVisible typingX = true
  ∧ Legacy.typingVisible (Legacy.sessionChanged "Y" typingX) = true
  ∧ Legacy.streamingText streamingX = "Hel"
  ∧ Legacy.currentSessionId switched = Some "Y"
  ∧ Legacy.msgsEl switched = [Legacy.NSystem "Loading session: Y…"]
  ∧ Legacy.seenMessages switched = ∅
  ∧ Legacy.pendingDedup switched = ∅
  ∧ Legacy.streamingDiv switched = true
  ∧ Legacy.streamingText switched = "Hel"
  ∧ Legacy.streamingText deltaY = "Hello"
  ∧ Legacy.msgsEl deltaY = [Legacy.NSystem "Loading session: Y…"].
Proof. vm_compute. by repeat split. Qed.

(** The same switch on the React route, from a state where text streamed
    for "X" is half revealed and the typing indicator is up. *)
Lemma react_session_switch_evaluation :
  let streamingX :=
    Web.run
      [Web.AutoSelect ["X"; "Y"] (Some "X");
       Web.Frame 10 (Some (webEvent "typing_start" "default" (Some "X")));
       Web.Frame 11 (Some (streamDeltaEvent "default" (Some "Hello") None));
       Web.Tick 12]
      Web.initialState in
  let switched := Web.pickSession "Y" streamingX in
  Web.streamBufferRef streamingX = "Hello"
  ∧ Web.displayedStream streamingX = "Hel"
  ∧ Web.typing streamingX = true
  ∧ Web.selectedSession switched = "Y"
  ∧ Web.liveMessages switched = []
  ∧ Web.streamBufferRef switched = ""
  ∧ Web.displayedStream switched = ""
  ∧ Web.revealedLen switched = 0%nat
  ∧ Web.typing switched = false
  ∧ Web.revealRaf switched = false.
Proof. vm_compute. by repeat split. Qed.

(** * Sending while disconnected *)

Section Send.

(** [sendCommand] of [app.js] with the socket not open: a toast, no frame,
    nothing kept for later. *)
Lemma legacy_sendCommand_rejected (text target : string) (st : Legacy.View) :
  Legacy.socketOpen st = false →
  Legacy.sendCommand text target st
  = Legacy.put_toasts
      (Legacy.toasts st ++ [Legacy.mkToast "Not connected" "error"]) st.
Proof. intros H. unfold Legacy.sendCommand. by rewrite H. Qed.

(** [sendMessage] and [startNewSession] of the React route with the
    socket not open: the state is left as it was. *)
Lemma react_send_rejected (now : Z) (st : Web.ChatState) :
  Web.socketOpen st = false →
  Web.sendMessage now st = st ∧ Web.startNewSession now st = st.
Proof.
  intros H. unfold Web.sendMessage, Web.startNewSession. rewrite H.
  by rewrite orb_true_r.
Qed.

End Send.

(** C9, evaluated on the React route. Right after the mount, with the chat
    socket still connecting while the header's status socket has opened, so
    that the header reads "Connected" and the "Reconnecting" badge is off, a
    send of "status?" leaves every field of the state as it was: no frame is
    sent, the draft stays in the compose box, and nothing is shown to the
    user. The legacy [sendCommand] with its socket not open shows the toast
    "Not connected" and sends nothing. *)
Theorem react_send_while_connecting_evaluation :
  let st :=
    Web.run [Web.StatusSocket true; Web.Draft "status?"] Web.initialState in
  let view := Legacy.put_inputValue "status?" (Legacy.initialView []) in
  Web.socketOpen st = false
  ∧ Web.wsConnected st = true
  ∧ Web.uiWsConnected st = true
  ∧ Web.sendMessage 1700000000000 st = st
  ∧ Web.sent (Web.sendMessage 1700000000000 st) = []
  ∧ Legacy.socketOpen view = false
  ∧ Legacy.toasts (Legacy.sendCommand "status?" "default" view)
    = [Legacy.mkToast "Not connected" "error"]
  ∧ Legacy.sent (Legacy.sendCommand "status?" "default" view) = [].
Proof. by repeat split. Qed.

(** * Timestamps *)



(** The React route keeps a numeric message timestamp as it arrives. *)
Lemma normalizeMessage_keeps_number (now n : Z) (r : option string) (c : JsValue) :
  Web.timestamp (Web.normalizeMessage now (Web.mkSession r c (Some n))) = n.
Proof. reflexivity. Qed.

(** For the start time of a fetched receipt the React route does tell
    seconds from milliseconds, and there 10^12 itself counts as seconds. *)
Lemma receiptTimestamp_boundary (now : Z) :
  Web.receiptTimestamp now (Some (10 ^ 12)) = 10 ^ 15
  ∧ Web.receiptTimestamp now (Some 1700000000)
    = Web.receiptTimestamp now (Some 1700000000000).
Proof. by split. Qed.

(** * Escaping *)

Section Escape.









End Escape.


(** * Instances of the conditional theorems *)

Lemma reveal_monotone_witness :
  let st :=
    Web.run
      [Web.Frame 1 (Some (streamDeltaEvent "default" (Some "Hello") None));
       Web.Tick 2]
      Web.initialState in
  Web.reachable st
  ∧ (Web.revealedLen st ≤ String.length (Web.streamBufferRef st))%nat.
Proof.
  intros st.
  assert (Web.reachable st) as Hr by (eexists; reflexivity).
  split; [exact Hr|]. exact (proj1 (reveal_monotone st 0 Hr)).
Defined.

